(** * Inventory-Management backend: a shallow embedding and its properties

    The development follows the Python sources module by module:
    [models.py] (validated request and response models), [utils.py] (the
    filter query builder), [database.py] (the data access layer),
    [main.py] (the request handlers) and [pdf_generator.py] (the two
    report variants).

    Python values are modelled as the code has them: [str] is a sequence
    of Unicode code points, [int] is [Z], [float] is a binary64 value
    (the kernel's primitive floats), [None]-able fields are [option]s,
    exceptions are values of a sum type. *)

From Stdlib Require Import ZArith List String Ascii Floats Lia Bool.
From Stdlib Require Import DecimalString.
From stdpp Require Import base option list gmap.
Import ListNotations.

Set Warnings "-inexact-float".
Local Open Scope Z_scope.

(* ===================================================================== *)
(** * Python values *)
(* ===================================================================== *)

(** A Python [str]: the list of its code points. *)
Abbreviation str := (list N).

(** An ASCII literal of the source as a [str]. *)
Definition lit (s : string) : str :=
  map N_of_ascii (list_ascii_of_string s).

(** [str(n)] for an [int]. *)
Definition str_of_int (z : Z) : str :=
  lit (NilZero.string_of_int (Z.to_int z)).

(** [sep.join(parts)]. *)
Fixpoint join (sep : str) (parts : list str) : str :=
  match parts with
  | [] => []
  | [p] => p
  | p :: rest => p ++ sep ++ join sep rest
  end.

(** [c.isspace()] on the code points below 256, the ones [str.strip]
    removes: TAB..CR, FS..US, SPACE, NEL and NBSP. *)
Definition isspace (c : N) : bool :=
  ((9 <=? c) && (c <=? 13) || (28 <=? c) && (c <=? 32)
   || (c =? 133) || (c =? 160))%N.

Fixpoint lstrip (s : str) : str :=
  match s with
  | c :: rest => if isspace c then lstrip rest else s
  | [] => []
  end.

Definition rstrip (s : str) : str := rev (lstrip (rev s)).

(** [s.strip()]. *)
Definition strip (s : str) : str := rstrip (lstrip s).

(** [len(s)]. *)
Definition len {A} (l : list A) : Z := Z.of_nat (length l).

(** The values that travel as statement arguments and filter values. *)
Inductive value :=
| VNone
| VBool (b : bool)
| VInt (z : Z)
| VFloat (f : float)
| VStr (s : str).

(** Python truthiness, as [if v:] tests it. *)
Definition truthy (v : value) : bool :=
  match v with
  | VNone => false
  | VBool b => b
  | VInt z => negb (z =? 0)
  | VFloat f => negb (f =? 0)%float
  | VStr s => match s with [] => false | _ => true end
  end.

Definition is_not_None (v : value) : bool :=
  match v with VNone => false | _ => true end.

(* ===================================================================== *)
(** * Floats: [round(v, 2)] and the [.2f] formats *)
(* ===================================================================== *)

(** Round the rational [num/den] ([den > 0]) to the nearest integer, ties
    to even: the rule CPython's correctly rounded decimal conversion uses. *)
Definition round_half_even (num den : Z) : Z :=
  let q := num / den in
  let r := num mod den in
  if 2 * r <? den then q
  else if den <? 2 * r then q + 1
  else if Z.even q then q else q + 1.

(** The magnitude [m * 2^e] in hundredths, rounded to an integer. *)
Definition hundredths (m : positive) (e : Z) : Z :=
  if 0 <=? e then 100 * Z.pos m * 2 ^ e
  else round_half_even (100 * Z.pos m) (2 ^ (- e)).

(** The binary64 value nearest to [(-1)^s * n / 100]. *)
Definition nearest_hundredth (s : bool) (n : Z) : float :=
  match n with
  | Zpos p =>
      SF2Prim (SFdiv prec emax (S754_finite s p 0) (S754_finite false 100 0))
  | _ => if s then (-0)%float else 0%float
  end.

(** [round(v, 2)] on a float: the exact value of [v] is rounded to two
    decimals (ties to even) and the nearest float to that decimal is
    returned; infinities and NaN are returned unchanged. *)
Definition round2 (v : float) : float :=
  match Prim2SF v with
  | S754_finite s m e => nearest_hundredth s (hundredths m e)
  | _ => v
  end.

(** Digits of a non-negative integer with [,] every three digits. *)
Fixpoint group3 (digits : list N) : list N :=
  match digits with
  | a :: b :: c :: (_ :: _) as rest =>
      a :: b :: c :: 44%N :: group3 rest
  | _ => digits
  end.

Definition thousands (s : str) : str := rev (group3 (rev s)).

Definition two_digits (n : Z) : str :=
  (if n <? 10 then lit "0" else []) ++ str_of_int n.

(** [format(v, '.2f')] ([grouped = false]) and [format(v, ',.2f')]. *)
Definition format_2f (grouped : bool) (v : float) : str :=
  match Prim2SF v with
  | S754_finite s m e =>
      let n := hundredths m e in
      let whole := str_of_int (n / 100) in
      (if s then lit "-" else [])
        ++ (if grouped then thousands whole else whole)
        ++ lit "." ++ two_digits (n mod 100)
  | S754_zero s => (if s then lit "-" else []) ++ lit "0.00"
  | S754_infinity s => (if s then lit "-" else []) ++ lit "inf"
  | S754_nan => lit "nan"
  end.

(** [float(n)] for an [int]: correctly rounded; [None] stands for the
    [OverflowError] of an integer too large for a float. *)
Definition float_of_int (z : Z) : option float :=
  match binary_normalize prec emax z 0 false with
  | S754_infinity _ => None
  | sf => Some (SF2Prim sf)
  end.

(* ===================================================================== *)
(** * models.py: the validated models *)
(* ===================================================================== *)

(** A [datetime] value, field by field. *)
Record datetime := mk_datetime {
  year : Z; month : Z; day : Z;
  hour : Z; minute : Z; second : Z; microsecond : Z
}.

(** Why a field was refused: one of the [Field(...)] constraints (whose
    message is the validation library's) or a [ValueError] raised by a
    validator of the module, with its message. *)
Inductive field_error :=
| min_length_violated (bound : Z)
| max_length_violated (bound : Z)
| ge_violated (bound : Z)
| gt_violated (bound : Z)
| ValueError (msg : str).

(** The [ValidationError] of a model: the refused fields, in declaration
    order, each with its reason. *)
Definition ValidationError := list (str * field_error).

Definition checked (A : Type) := (field_error + A)%type.

Definition and_then {A B} (r : checked A) (f : A -> checked B) : checked B :=
  match r with inl e => inl e | inr a => f a end.

Definition errors_of {A} (field : string) (r : checked A) : ValidationError :=
  match r with inl e => [(lit field, e)] | inr _ => [] end.

(** [Field(min_length=lo, max_length=hi)] on a string. *)
Definition Field_str (lo : option Z) (hi : option Z) (v : str) : checked str :=
  match lo with
  | Some n => if len v <? n then inl (min_length_violated n) else
      match hi with
      | Some m => if m <? len v then inl (max_length_violated m) else inr v
      | None => inr v
      end
  | None =>
      match hi with
      | Some m => if m <? len v then inl (max_length_violated m) else inr v
      | None => inr v
      end
  end.

(** [Field(ge=0)] on an [int]. *)
Definition Field_ge (bound : Z) (v : Z) : checked Z :=
  if bound <=? v then inr v else inl (ge_violated bound).

(** [Field(gt=0)] on a [float] ([bound] is an integer constant). *)
Definition Field_gt (bound : Z) (v : float) : checked float :=
  match float_of_int bound with
  | Some b => if (b <? v)%float then inr v else inl (gt_violated bound)
  | None => inl (gt_violated bound)
  end.

(** A constraint or validator of an [Optional] field: [None] passes. *)
Definition optionally {A} (f : A -> checked A) (v : option A)
  : checked (option A) :=
  match v with
  | None => inr None
  | Some a => match f a with inl e => inl e | inr a' => inr (Some a') end
  end.

Module ProductBase.

(** The fields as they reach the model (typed by the request parser). *)
Record fields := mk_fields {
  name : str;
  category : str;
  quantity : Z;
  price : float;
  description : option str
}.

Definition validate_name (v : str) : checked str :=
  if bool_decide (strip v = []) then
    inl (ValueError (lit "Product name cannot be empty"))
  else inr (strip v).

Definition validate_category (v : str) : checked str :=
  if bool_decide (strip v = []) then
    inl (ValueError (lit "Category cannot be empty"))
  else inr (strip v).

Definition validate_price (v : float) : checked float :=
  if (v <=? 0)%float then
    inl (ValueError (lit "Price must be greater than 0"))
  else inr (round2 v).

Definition validate_quantity (v : Z) : checked Z :=
  if v <? 0 then inl (ValueError (lit "Quantity cannot be negative"))
  else inr v.

(** Building the model: each field passes its [Field(...)] constraint
    and then its validator; all refusals are collected. *)
Definition init (raw : fields) : ValidationError + fields :=
  let n := and_then (Field_str (Some 1) (Some 255) (name raw)) validate_name in
  let c := and_then (Field_str (Some 1) (Some 100) (category raw))
             validate_category in
  let q := and_then (Field_ge 0 (quantity raw)) validate_quantity in
  let p := and_then (Field_gt 0 (price raw)) validate_price in
  let d := optionally (Field_str None (Some 1000)) (description raw) in
  match n, c, q, p, d with
  | inr n', inr c', inr q', inr p', inr d' =>
      inr (mk_fields n' c' q' p' d')
  | _, _, _, _, _ =>
      inl (errors_of "name" n ++ errors_of "category" c
           ++ errors_of "quantity" q ++ errors_of "price" p
           ++ errors_of "description" d)
  end.

End ProductBase.

(** [ProductCreate(ProductBase)]: nothing added. *)
Module ProductCreate.
Definition init := ProductBase.init.
End ProductCreate.

Module ProductUpdate.

Record fields := mk_fields {
  name : option str;
  category : option str;
  quantity : option Z;
  price : option float;
  description : option str
}.

(** [return v.strip() if v else v], after the emptiness test. *)
Definition validate_name (v : option str) : checked (option str) :=
  match v with
  | Some s =>
      if bool_decide (strip s = []) then
        inl (ValueError (lit "Product name cannot be empty"))
      else inr (match s with [] => Some s | _ => Some (strip s) end)
  | None => inr None
  end.

Definition validate_category (v : option str) : checked (option str) :=
  match v with
  | Some s =>
      if bool_decide (strip s = []) then
        inl (ValueError (lit "Category cannot be empty"))
      else inr (match s with [] => Some s | _ => Some (strip s) end)
  | None => inr None
  end.

Definition validate_price (v : option float) : checked (option float) :=
  match v with
  | Some f =>
      if (f <=? 0)%float then
        inl (ValueError (lit "Price must be greater than 0"))
      else inr (Some (round2 f))
  | None => inr None
  end.

Definition validate_quantity (v : option Z) : checked (option Z) :=
  match v with
  | Some z =>
      if z <? 0 then inl (ValueError (lit "Quantity cannot be negative"))
      else inr (Some z)
  | None => inr None
  end.

Definition init (raw : fields) : ValidationError + fields :=
  let n := and_then (optionally (Field_str (Some 1) (Some 255)) (name raw))
             validate_name in
  let c := and_then (optionally (Field_str (Some 1) (Some 100)) (category raw))
             validate_category in
  let q := and_then (optionally (Field_ge 0) (quantity raw))
             validate_quantity in
  let p := and_then (optionally (Field_gt 0) (price raw)) validate_price in
  let d := optionally (Field_str None (Some 1000)) (description raw) in
  match n, c, q, p, d with
  | inr n', inr c', inr q', inr p', inr d' =>
      inr (mk_fields n' c' q' p' d')
  | _, _, _, _, _ =>
      inl (errors_of "name" n ++ errors_of "category" c
           ++ errors_of "quantity" q ++ errors_of "price" p
           ++ errors_of "description" d)
  end.

End ProductUpdate.

(** [Product(ProductBase)]: the validated fields with the three columns
    the store generates. *)
Record Product := mk_Product {
  id : Z;
  base : ProductBase.fields;
  created_at : datetime;
  updated_at : datetime
}.

Definition Product_init (id_ : Z) (raw : ProductBase.fields)
    (created updated : datetime) : ValidationError + Product :=
  match ProductBase.init raw with
  | inl errs => inl errs
  | inr b => inr (mk_Product id_ b created updated)
  end.



(* ===================================================================== *)
(** * utils.py: the filter query builder *)
(* ===================================================================== *)

Section utils.

(** [str(f)] of a float is the runtime's shortest round-trip rendering;
    the builder only passes it through, so it is taken as given. *)
Variable repr_float : float -> str.

(** [f"{v}"]. *)
Definition format_value (v : value) : str :=
  match v with
  | VNone => lit "None"
  | VBool true => lit "True"
  | VBool false => lit "False"
  | VInt z => str_of_int z
  | VFloat f => repr_float f
  | VStr s => s
  end.

(** [filters.get(key)]: [None] for a missing key.  The builder indexes
    [filters[key]] only under a test that [filters.get(key)] is set, so
    the same lookup serves both. *)
Definition dict_get (filters : gmap str value) (key : string) : value :=
  default VNone (filters !! lit key).

(** One conditional step of the builder: append a condition and its
    arguments when the test holds. *)
Definition add_if (test : bool) (condition : string) (args : list value)
    (acc : list str * list value) : list str * list value :=
  if test then (acc.1 ++ [lit condition], acc.2 ++ args) else acc.

Definition build_search_query (base_query : str)
    (filters : gmap str value) : str * list value :=
  let acc : list str * list value := ([], []) in
  (* Category filter *)
  let acc := add_if (truthy (dict_get filters "category"))
               "category = %s" [dict_get filters "category"] acc in
  (* Price range filter *)
  let acc := add_if (is_not_None (dict_get filters "min_price"))
               "price >= %s" [dict_get filters "min_price"] acc in
  let acc := add_if (is_not_None (dict_get filters "max_price"))
               "price <= %s" [dict_get filters "max_price"] acc in
  (* Quantity range filter *)
  let acc := add_if (is_not_None (dict_get filters "min_quantity"))
               "quantity >= %s" [dict_get filters "min_quantity"] acc in
  let acc := add_if (is_not_None (dict_get filters "max_quantity"))
               "quantity <= %s" [dict_get filters "max_quantity"] acc in
  (* Search filter *)
  let search_term :=
    VStr (lit "%" ++ format_value (dict_get filters "search") ++ lit "%") in
  let acc := add_if (truthy (dict_get filters "search"))
               "(name LIKE %s OR description LIKE %s)"
               [search_term; search_term] acc in
  (* Low stock filter *)
  let acc := add_if (truthy (dict_get filters "low_stock"))
               "quantity < 10" [] acc in
  (* Build final query *)
  let '(conditions, params) := acc in
  match conditions with
  | _ :: _ =>
      (base_query ++ lit " WHERE " ++ join (lit " AND ") conditions, params)
  | [] => (base_query, params)
  end.

End utils.

(** The number of [%s] placeholders of a statement text, left to right. *)
Fixpoint count_placeholders (s : str) : nat :=
  match s with
  | 37%N :: rest =>
      match rest with
      | 115%N :: rest' => S (count_placeholders rest')
      | _ => count_placeholders rest
      end
  | _ :: rest => count_placeholders rest
  | [] => O
  end.

(* ===================================================================== *)
(** * Exceptions *)
(* ===================================================================== *)

(** The exceptions that cross module boundaries.  Where the source builds
    a message with [f"...{e}"], the text before the insertion and the
    exception inserted are both kept. *)
Inductive exn :=
| Error (msg : str)
    (** [mysql.connector.Error], with the driver's message *)
| Exception (prefix : str) (cause : exn)
    (** [Exception(f"{prefix}{cause}")] *)
| ModelError (errors : ValidationError)
    (** the validation library's error for a refused model *)
| OverflowError
    (** an [int] too large to convert to [float] *)
| HTTPException (status_code : Z) (detail : str)
| HTTPExceptionFrom (status_code : Z) (prefix : str) (cause : exn).
    (** [HTTPException(status_code, detail=f"{prefix}{str(cause)}")] *)

Definition is_HTTPException (e : exn) : bool :=
  match e with
  | HTTPException _ _ | HTTPExceptionFrom _ _ _ => true
  | _ => false
  end.

(* ===================================================================== *)
(** * database.py: the data access layer *)
(* ===================================================================== *)

(** What a cursor holds after a statement ran. *)
Record cursor (Row : Type) := mk_cursor {
  fetchall : list Row;
  rowcount : Z;
  lastrowid : Z
}.
Arguments mk_cursor {Row}.
Arguments fetchall {Row}.
Arguments rowcount {Row}.
Arguments lastrowid {Row}.

Section database.

(** The relational engine is an external collaborator: [State] is the
    data it holds, [run] the effect of one statement with its arguments
    on a view of that data (the driver's error message, or the new view
    and the cursor), [unavailable] the message with which handing out a
    pooled connection fails, if it does. *)
Context {State Row : Type}.
Variable run : str -> list value -> State -> str + (State * cursor Row).
Variable unavailable : State -> option str.

(** A session: the committed data, the session's own view of it and
    the autocommit flag. *)
Record Connection := mk_Connection {
  committed : State;
  working : State;
  autocommit : bool
}.

(** [self.connection_pool.get_connection()]; the pool is configured
    with [autocommit: True]. *)
Definition get_connection (db : State) : exn + Connection :=
  match unavailable db with
  | Some msg => inl (Error msg)
  | None => inr (mk_Connection db db true)
  end.

(** Leaving the [with] block closes the connection: the session goes
    back to the pool and what it did not commit is discarded. *)
Definition close (c : Connection) : State := committed c.

Definition set_autocommit (b : bool) (c : Connection) : Connection :=
  mk_Connection (committed c) (working c) b.

Definition commit (c : Connection) : Connection :=
  mk_Connection (working c) (working c) (autocommit c).

Definition rollback (c : Connection) : Connection :=
  mk_Connection (committed c) (committed c) (autocommit c).

(** [if params: cursor.execute(query, params) else: cursor.execute(query)].
    A missing and an empty argument list both run the text as it is.
    A failing statement leaves the session's view as it was. *)
Definition cursor_execute (query : str) (params : option (list value))
    (c : Connection) : (exn + cursor Row) * Connection :=
  let args := match params with Some ((_ :: _) as ps) => ps | _ => [] end in
  match run query args (working c) with
  | inl msg => (inl (Error msg), c)
  | inr (s, cur) =>
      (inr cur,
       if autocommit c then mk_Connection s s true
       else mk_Connection (committed c) s false)
  end.

(** The common shape of the three single-statement methods: run the
    statement on a pooled connection, read [result] off the cursor,
    [commit] when [commits], and wrap a driver error. *)
Definition execute_one {A} (wrap : string) (commits : bool)
    (result : cursor Row -> A) (query : str) (params : option (list value))
    (db : State) : (exn + A) * State :=
  match get_connection db with
  | inl e => (inl (Exception (lit wrap) e), db)
  | inr c =>
      match cursor_execute query params c with
      | (inl e, c') => (inl (Exception (lit wrap) e), close c')
      | (inr cur, c') =>
          (inr (result cur), close (if commits then commit c' else c'))
      end
  end.

Definition execute_query :=
  execute_one "Query execution failed: " false fetchall.

Definition execute_insert :=
  execute_one "Insert execution failed: " true lastrowid.

Definition execute_update :=
  execute_one "Update execution failed: " true rowcount.

(** The [for] loop of [execute_transaction]: stops at the first
    statement the driver refuses. *)
Fixpoint execute_each (queries : list (str * option (list value)))
    (c : Connection) : (exn + unit) * Connection :=
  match queries with
  | [] => (inr tt, c)
  | (query, params) :: rest =>
      match cursor_execute query params c with
      | (inl e, c') => (inl e, c')
      | (inr _, c') => execute_each rest c'
      end
  end.

(** The body of the [with] block of [execute_transaction], with the
    connection as it is when the block is left. *)
Definition transaction_body (queries : list (str * option (list value)))
    (c : Connection) : (exn + bool) * Connection :=
  let c := set_autocommit false c in
  match execute_each queries c with
  | (inr _, c') => (inr true, commit c')
  | (inl e, c') => (inl e, rollback c')
  end.

Definition execute_transaction (queries : list (str * option (list value)))
    (db : State) : (exn + bool) * State :=
  match get_connection db with
  | inl e => (inl (Exception (lit "Transaction execution failed: ") e), db)
  | inr c =>
      match transaction_body queries c with
      | (inl e, c') =>
          (inl (Exception (lit "Transaction execution failed: ") e), close c')
      | (inr ok, c') => (inr ok, close c')
      end
  end.

(** Reference semantics, not a method of the source: all statements of
    a sequence applied in order to a view of the data, or the message
    of the first one refused. *)
Fixpoint run_all (queries : list (str * option (list value))) (s : State)
    : str + State :=
  match queries with
  | [] => inr s
  | (query, params) :: rest =>
      let args := match params with Some ((_ :: _) as ps) => ps | _ => [] end in
      match run query args s with
      | inl msg => inl msg
      | inr (s', _) => run_all rest s'
      end
  end.

End database.

(* ===================================================================== *)
(** * main.py: the request handlers *)
(* ===================================================================== *)

(** A row of the [products] table, column by column ([row[0]] to
    [row[7]]); [row_price] is the column as [float(row[4])] reads it. *)
Record product_row := mk_row {
  row_id : Z;
  row_name : str;
  row_category : str;
  row_quantity : Z;
  row_price : float;
  row_description : option str;
  row_created_at : datetime;
  row_updated_at : datetime
}.

(** [Product(id=row[0], name=row[1], ..., updated_at=row[7])]. *)
Definition Product_of_row (row : product_row) : ValidationError + Product :=
  Product_init (row_id row)
    (ProductBase.mk_fields (row_name row) (row_category row)
       (row_quantity row) (row_price row) (row_description row))
    (row_created_at row) (row_updated_at row).

Definition value_of_optional_str (v : option str) : value :=
  match v with Some s => VStr s | None => VNone end.

(** The statement texts the handlers send. *)
Definition select_by_id : str := lit "SELECT * FROM products WHERE id = %s".
Definition delete_by_id : str := lit "DELETE FROM products WHERE id = %s".
Definition insert_product : str :=
  [10%N] ++ lit "        INSERT INTO products (name, category, quantity, price, description)"
  ++ [10%N] ++ lit "        VALUES (%s, %s, %s, %s, %s)"
  ++ [10%N] ++ lit "        ".

(** The statement and arguments [get_products] builds before it calls
    [db.execute_query(query, params)]. *)
Definition get_products_query (skip limit : Z) (category search : option str)
    (low_stock : option bool) : str * list value :=
  let query := lit "SELECT * FROM products WHERE 1=1" in
  let params : list value := [] in
  let '(query, params) :=
    match category with
    | Some ((_ :: _) as c) =>
        (query ++ lit " AND category = %s", params ++ [VStr c])
    | _ => (query, params)
    end in
  let '(query, params) :=
    match search with
    | Some ((_ :: _) as s) =>
        let search_param := VStr (lit "%" ++ s ++ lit "%") in
        (query ++ lit " AND (name LIKE %s OR description LIKE %s)",
         params ++ [search_param; search_param])
    | _ => (query, params)
    end in
  let query :=
    match low_stock with
    | Some true => query ++ lit " AND quantity < 10"
    | _ => query
    end in
  let query := query ++ lit " ORDER BY created_at DESC LIMIT %s OFFSET %s" in
  let params := params ++ [VInt limit; VInt skip] in
  (query, params).

Section main.

Context {State : Type}.
Variable run : str -> list value -> State -> str + (State * cursor product_row).
Variable unavailable : State -> option str.

(** A handler: it reads and changes the store and returns or raises. *)
Definition handler (A : Type) := State -> (exn + A) * State.

Definition ret {A} (a : A) : handler A := fun db => (inr a, db).
Definition raise {A} (e : exn) : handler A := fun db => (inl e, db).
Definition bind {A B} (m : handler A) (k : A -> handler B) : handler B :=
  fun db =>
    match m db with
    | (inl e, db') => (inl e, db')
    | (inr a, db') => k a db'
    end.

Notation "x <- m ;; k" := (bind m (fun x => k))
  (at level 100, m at level 99, right associativity).
Notation "m ;;; k" := (bind m (fun _ => k))
  (at level 100, right associativity).

(** [except HTTPException: raise] followed by
    [except Exception as e: raise HTTPException(500, f"{prefix}{str(e)}")]. *)
Definition api_boundary {A} (prefix : string) (body : handler A) : handler A :=
  fun db =>
    match body db with
    | (inl e, db') =>
        (inl (if is_HTTPException e then e
              else HTTPExceptionFrom 500 (lit prefix) e), db')
    | ok => ok
    end.

(** Building a model inside a handler: a refusal is raised. *)
Definition construct {A} (r : ValidationError + A) : handler A :=
  match r with inl errs => raise (ModelError errs) | inr a => ret a end.

Definition when (test : bool) (e : exn) : handler unit :=
  if test then raise e else ret tt.

Fixpoint for_each {A B} (f : A -> handler B) (l : list A) : handler (list B) :=
  match l with
  | [] => ret []
  | a :: rest => b <- f a ;; bs <- for_each f rest ;; ret (b :: bs)
  end.

Definition get_products (skip limit : Z) (category search : option str)
    (low_stock : option bool) : handler (list Product) :=
  api_boundary "Failed to fetch products: "
    (let '(query, params) :=
       get_products_query skip limit category search low_stock in
     results <- execute_query run unavailable query (Some params) ;;
     for_each (fun row => construct (Product_of_row row)) results).

Definition get_product (product_id : Z) : handler Product :=
  api_boundary "Failed to fetch product: "
    (results <- execute_query run unavailable select_by_id
                  (Some [VInt product_id]) ;;
     match results with
     | [] =>
         raise (HTTPException 404
                  (lit "Product with ID " ++ str_of_int product_id
                   ++ lit " not found"))
     | row :: _ => construct (Product_of_row row)
     end).

Definition create_product (product : ProductBase.fields) : handler Product :=
  api_boundary "Failed to create product: "
    ((* Validate input *)
     when (ProductBase.price product <=? 0)%float
       (HTTPException 400 (lit "Price must be greater than 0")) ;;;
     when (ProductBase.quantity product <? 0)
       (HTTPException 400 (lit "Quantity cannot be negative")) ;;;
     (* Insert product *)
     let params :=
       [VStr (ProductBase.name product); VStr (ProductBase.category product);
        VInt (ProductBase.quantity product);
        VFloat (ProductBase.price product);
        value_of_optional_str (ProductBase.description product)] in
     product_id <- execute_insert run unavailable insert_product (Some params) ;;
     (* Fetch the created product *)
     get_product product_id).

(** The dynamic part of [update_product]: the [SET] clauses and their
    arguments, or the refusal of a negative quantity or a price that is
    not positive. *)
Definition update_fields_of (product_update : ProductUpdate.fields)
    : handler (list str * list value) :=
  let acc : list str * list value := ([], []) in
  let acc :=
    match ProductUpdate.name product_update with
    | Some v => (acc.1 ++ [lit "name = %s"], acc.2 ++ [VStr v])
    | None => acc
    end in
  let acc :=
    match ProductUpdate.category product_update with
    | Some v => (acc.1 ++ [lit "category = %s"], acc.2 ++ [VStr v])
    | None => acc
    end in
  acc <- match ProductUpdate.quantity product_update with
         | Some v =>
             when (v <? 0)
               (HTTPException 400 (lit "Quantity cannot be negative")) ;;;
             ret (acc.1 ++ [lit "quantity = %s"], acc.2 ++ [VInt v])
         | None => ret acc
         end ;;
  acc <- match ProductUpdate.price product_update with
         | Some v =>
             when (v <=? 0)%float
               (HTTPException 400 (lit "Price must be greater than 0")) ;;;
             ret (acc.1 ++ [lit "price = %s"], acc.2 ++ [VFloat v])
         | None => ret acc
         end ;;
  ret match ProductUpdate.description product_update with
      | Some v => (acc.1 ++ [lit "description = %s"], acc.2 ++ [VStr v])
      | None => acc
      end.

Definition update_product (product_id : Z)
    (product_update : ProductUpdate.fields) : handler Product :=
  api_boundary "Failed to update product: "
    ((* Check if product exists *)
     existing_product <- get_product product_id ;;
     (* Build update query dynamically *)
     built <- update_fields_of product_update ;;
     let '(update_fields, params) := built in
     when (bool_decide (update_fields = []))
       (HTTPException 400 (lit "No fields to update")) ;;;
     (* Execute update *)
     let query := lit "UPDATE products SET " ++ join (lit ", ") update_fields
                  ++ lit " WHERE id = %s" in
     let params := params ++ [VInt product_id] in
     execute_update run unavailable query (Some params) ;;;
     (* Return updated product *)
     get_product product_id).

Definition delete_product (product_id : Z) : handler str :=
  api_boundary "Failed to delete product: "
    ((* Check if product exists *)
     existing_product <- get_product product_id ;;
     (* Delete product *)
     rows_affected <- execute_update run unavailable delete_by_id
                        (Some [VInt product_id]) ;;
     when (rows_affected =? 0)
       (HTTPException 404
          (lit "Product with ID " ++ str_of_int product_id
           ++ lit " not found")) ;;;
     ret (lit "Product '" ++ ProductBase.name (base existing_product)
          ++ lit "' deleted successfully")).

End main.

(* ===================================================================== *)
(** * The relational store, as the handlers use it *)
(* ===================================================================== *)

(** The [products] table by primary key, the next generated identifier,
    the server's clock, and the failure (if any) with which the server
    currently refuses connections.  Only the statements the product
    handlers send are given a meaning; any other text is refused. *)
Record Store := mk_Store {
  table : gmap Z product_row;
  next_id : Z;
  server_now : datetime;
  fault : option str
}.

#[global] Instance spec_float_eq_dec : EqDecision spec_float.
Proof. solve_decision. Defined.

(** [s] without the prefix [p], when it starts with it. *)
Fixpoint strip_prefix (p s : str) : option str :=
  match p, s with
  | [], _ => Some s
  | a :: p', b :: s' => if (a =? b)%N then strip_prefix p' s' else None
  | _ :: _, [] => None
  end.

Definition strip_suffix (p s : str) : option str :=
  match strip_prefix (rev p) (rev s) with
  | Some r => Some (rev r)
  | None => None
  end.

(** [s.split(sep)] for a non-empty separator; [cur] is the piece being
    read, reversed, and [skip] counts the code points of a separator
    still to be passed over. *)
Fixpoint split_at (sep cur : str) (skip : nat) (s : str) : list str :=
  match s with
  | [] => [rev cur]
  | c :: rest =>
      match skip with
      | S k => split_at sep cur k rest
      | O =>
          match strip_prefix sep s with
          | Some _ => rev cur :: split_at sep [] (length sep - 1) rest
          | None => split_at sep (c :: cur) 0 rest
          end
      end
  end.

Definition split (sep s : str) : list str := split_at sep [] 0 s.

(** One [column = %s] clause of an [UPDATE], applied to a row with the
    argument bound to its placeholder. *)
Definition assign (clause : str) (arg : value) (r : product_row)
    : option product_row :=
  let set_name v := mk_row (row_id r) v (row_category r) (row_quantity r)
      (row_price r) (row_description r) (row_created_at r) (row_updated_at r) in
  let set_category v := mk_row (row_id r) (row_name r) v (row_quantity r)
      (row_price r) (row_description r) (row_created_at r) (row_updated_at r) in
  let set_quantity v := mk_row (row_id r) (row_name r) (row_category r) v
      (row_price r) (row_description r) (row_created_at r) (row_updated_at r) in
  let set_price v := mk_row (row_id r) (row_name r) (row_category r)
      (row_quantity r) v (row_description r) (row_created_at r)
      (row_updated_at r) in
  let set_description v := mk_row (row_id r) (row_name r) (row_category r)
      (row_quantity r) (row_price r) v (row_created_at r) (row_updated_at r) in
  if bool_decide (clause = lit "name = %s") then
    match arg with VStr v => Some (set_name v) | _ => None end
  else if bool_decide (clause = lit "category = %s") then
    match arg with VStr v => Some (set_category v) | _ => None end
  else if bool_decide (clause = lit "quantity = %s") then
    match arg with VInt v => Some (set_quantity v) | _ => None end
  else if bool_decide (clause = lit "price = %s") then
    match arg with VFloat v => Some (set_price v) | _ => None end
  else if bool_decide (clause = lit "description = %s") then
    match arg with
    | VStr v => Some (set_description (Some v))
    | VNone => Some (set_description None)
    | _ => None
    end
  else None.

(** The [SET] clauses applied left to right; what is left of the
    arguments is returned with the row. *)
Fixpoint assign_all (clauses : list str) (args : list value) (r : product_row)
    : option (product_row * list value) :=
  match clauses with
  | [] => Some (r, args)
  | clause :: clauses' =>
      match args with
      | [] => None
      | arg :: args' =>
          match assign clause arg r with
          | Some r' => assign_all clauses' args' r'
          | None => None
          end
      end
  end.

Definition same_row (a b : product_row) : bool :=
  bool_decide (row_name a = row_name b)
  && bool_decide (row_category a = row_category b)
  && (row_quantity a =? row_quantity b)
  && bool_decide (Prim2SF (row_price a) = Prim2SF (row_price b))
  && bool_decide (row_description a = row_description b).

Definition refused : str := lit "statement outside the modelled fragment".

Definition run_select (args : list value) (s : Store)
    : str + (Store * cursor product_row) :=
  match args with
  | [VInt i] =>
      let found := match table s !! i with Some r => [r] | None => [] end in
      inr (s, mk_cursor found (len found) 0)
  | _ => inl refused
  end.

Definition run_delete (args : list value) (s : Store)
    : str + (Store * cursor product_row) :=
  match args with
  | [VInt i] =>
      let affected := match table s !! i with Some _ => 1 | None => 0 end in
      inr (mk_Store (delete i (table s)) (next_id s) (server_now s) (fault s),
           mk_cursor [] affected 0)
  | _ => inl refused
  end.

Definition run_insert (args : list value) (s : Store)
    : str + (Store * cursor product_row) :=
  match args with
  | [VStr n; VStr c; VInt q; VFloat p; d] =>
      match match d with
            | VStr t => Some (Some t) | VNone => Some None | _ => None
            end with
      | Some d' =>
          let r := mk_row (next_id s) n c q p d' (server_now s) (server_now s) in
          inr (mk_Store (<[next_id s := r]> (table s)) (next_id s + 1)
                 (server_now s) (fault s),
               mk_cursor [] 1 (next_id s))
      | None => inl refused
      end
  | _ => inl refused
  end.

(** An [UPDATE products SET ... WHERE id = %s]: the row is rewritten and
    counted only when a column changes, and then its [updated_at] is the
    server's time. *)
Definition run_update (clauses : list str) (args : list value) (s : Store)
    : str + (Store * cursor product_row) :=
  match rev args with
  | VInt i :: _ =>
      match table s !! i with
      | None => inr (s, mk_cursor [] 0 0)
      | Some r =>
          match assign_all clauses args r with
          | Some (r', [_]) =>
              if same_row r r' then inr (s, mk_cursor [] 0 0)
              else
                let r'' := mk_row (row_id r') (row_name r') (row_category r')
                  (row_quantity r') (row_price r') (row_description r')
                  (row_created_at r') (server_now s) in
                inr (mk_Store (<[i := r'']> (table s)) (next_id s)
                       (server_now s) (fault s),
                     mk_cursor [] 1 0)
          | _ => inl refused
          end
      end
  | _ => inl refused
  end.

Definition products_run (query : str) (args : list value) (s : Store)
    : str + (Store * cursor product_row) :=
  if bool_decide (query = select_by_id) then run_select args s
  else if bool_decide (query = delete_by_id) then run_delete args s
  else if bool_decide (query = insert_product) then run_insert args s
  else
    match strip_prefix (lit "UPDATE products SET ") query with
    | Some rest =>
        match strip_suffix (lit " WHERE id = %s") rest with
        | Some clauses => run_update (split (lit ", ") clauses) args s
        | None => inl refused
        end
    | None => inl refused
    end.

(** The not-found answer of [get_product] and [delete_product]. *)
Definition not_found (product_id : Z) : exn :=
  HTTPException 404
    (lit "Product with ID " ++ str_of_int product_id ++ lit " not found").

(** The handlers over this store. *)
Module Api.
Definition get_product := get_product products_run fault.
Definition get_products := get_products products_run fault.
Definition create_product := create_product products_run fault.
Definition update_product := update_product products_run fault.
Definition delete_product := delete_product products_run fault.
Definition execute_transaction :=
  execute_transaction (Row := product_row) products_run fault.
End Api.

(* ===================================================================== *)
(** * pdf_generator.py: the two report variants *)
(* ===================================================================== *)

(** What the generator reads besides its arguments: [datetime.now()]. *)
Record World := mk_World { wall_clock : datetime }.

Definition month_name (m : Z) : str :=
  nth (Z.to_nat (m - 1))
    (map lit ["January"; "February"; "March"; "April"; "May"; "June"; "July";
              "August"; "September"; "October"; "November"; "December"]%string)
    [].

Definition four_digits (n : Z) : str :=
  (if n <? 1000 then lit "0" else []) ++ (if n <? 100 then lit "0" else [])
  ++ (if n <? 10 then lit "0" else []) ++ str_of_int n.

(** [dt.strftime('%B %d, %Y at %I:%M %p')]. *)
Definition strftime_report (dt : datetime) : str :=
  let hour12 := if hour dt mod 12 =? 0 then 12 else hour dt mod 12 in
  month_name (month dt) ++ lit " " ++ two_digits (day dt) ++ lit ", "
  ++ four_digits (year dt) ++ lit " at " ++ two_digits hour12 ++ lit ":"
  ++ two_digits (minute dt) ++ lit " "
  ++ (if hour dt <? 12 then lit "AM" else lit "PM").

(** Colours, table style commands and flowables of the layout library,
    as the generator builds them. *)
Inductive color :=
| HexColor (code : str)
| whitesmoke
| grey
| white.

Inductive style_arg :=
| AColor (c : color)
| AColors (cs : list color)
| AText (s : str)
| AInt (n : Z)
| AFloat (f : float).

Record style_cmd := mk_cmd {
  cmd : str;
  cell_from : Z * Z;
  cell_to : Z * Z;
  cmd_args : list style_arg
}.

Inductive flowable :=
| Paragraph (text : str) (style : str)
| Spacer (width : Z) (height : float)
| Table (data : list (list str)) (colWidths : list float) (repeatRows : Z)
        (style : list style_cmd).

(** The document handed to [doc.build(story)]; the bytes returned are the
    layout library's rendering of it. *)
Record document := mk_document {
  topMargin : float;
  bottomMargin : float;
  story : list flowable
}.

Definition inch : float := 72%float.

Definition style (name : string) (a b : Z * Z) (args : list style_arg)
  : style_cmd := mk_cmd (lit name) a b args.

Definition hex (code : string) : style_arg := AColor (HexColor (lit code)).

(** [name[:n] + '...' if len(name) > n else name]. *)
Definition truncate (n : nat) (s : str) : str :=
  if Z.of_nat n <? len s then take n s ++ lit "..." else s.

(** A stable sort by an integer key, as [list.sort(key=...)] is. *)
Fixpoint insert_by {A} (key : A -> Z) (x : A) (l : list A) : list A :=
  match l with
  | [] => [x]
  | y :: rest =>
      if key y <=? key x then y :: insert_by key x rest else x :: l
  end.

Definition sort_by {A} (key : A -> Z) (l : list A) : list A :=
  fold_left (fun sorted x => insert_by key x sorted) l [].

(** [enumerate(l, start=i)]. *)
Fixpoint enumerate {A} (i : Z) (l : list A) : list (Z * A) :=
  match l with
  | [] => []
  | x :: rest => (i, x) :: enumerate (i + 1) rest
  end.

Definition qty (p : Product) : Z := ProductBase.quantity (base p).

(** A loop or comprehension whose body may raise: the results in order,
    or the first exception. *)
Fixpoint try_map {A B} (f : A -> exn + B) (l : list A) : exn + list B :=
  match l with
  | [] => inr []
  | a :: rest =>
      match f a with
      | inl e => inl e
      | inr b =>
          match try_map f rest with
          | inl e => inl e
          | inr bs => inr (b :: bs)
          end
      end
  end.

Section pdf_generator.

(** [sum(...)] over floats starting from [0]: the runtime's summation
    (its rounding differs between interpreter versions). *)
Variable sum_floats : list float -> float.

(** [p.quantity * p.price]: the quantity is converted to a float. *)
Definition line_value (p : Product) : exn + float :=
  match float_of_int (qty p) with
  | Some q => inr (q * ProductBase.price (base p))%float
  | None => inl OverflowError
  end.

(** [sum(p.quantity * p.price for p in products)]. *)
Definition line_values (products : list Product) : exn + list float :=
  try_map line_value products.

Definition total_of (products : list Product) : exn + float :=
  match line_values products with
  | inl e => inl e
  | inr vs => inr (sum_floats vs)
  end.

Definition count_below (threshold : Z) (products : list Product) : Z :=
  len (filter (fun p => qty p < threshold) products).

Definition footer : list flowable :=
  [Spacer 1 (0.3 * inch);
   Paragraph (lit "<i>Report generated by Inventory Management System</i>")
     (lit "CustomSubtitle")].


(** The data rows of a table, one per product. *)
Definition rows_of (row : Product -> exn + list str)
    (products : list Product) : exn + list (list str) :=
  try_map row products.

(** The [table_style.add] calls of a highlighting loop. *)
Definition highlight (threshold column : Z) (colour : string)
    (products : list Product) : list style_cmd :=
  flat_map
    (fun ip : Z * Product =>
       if qty ip.2 <? threshold then
         [style "TEXTCOLOR" (column, ip.1) (column, ip.1) [hex colour];
          style "FONTNAME" (column, ip.1) (column, ip.1)
            [AText (lit "Helvetica-Bold")]]
       else [])
    (enumerate 1 products).


Definition low_stock_header : list str :=
  map lit ["Priority"; "ID"; "Name"; "Category"; "Qty"; "Price";
           "Total Value"; "Reorder"]%string.

(** One data row of the low-stock report. *)
Definition low_stock_row (product : Product) : exn + list str :=
  match line_value product with
  | inl e => inl e
  | inr total_product_value =>
      let priority :=
        if qty product <? 5 then [128308%N] ++ lit " Critical"
        else [128993%N] ++ lit " Low" in
      (* Suggest reordering to 20 units *)
      let suggested_reorder := Z.max (20 - qty product) 10 in
      inr [priority;
           str_of_int (id product);
           truncate 25 (ProductBase.name (base product));
           ProductBase.category (base product);
           str_of_int (qty product);
           lit "$" ++ format_2f false (ProductBase.price (base product));
           lit "$" ++ format_2f false total_product_value;
           lit "+" ++ str_of_int suggested_reorder]
  end.

Definition recommendations_text : str :=
  let indent := [10%N] ++ lit "            " in
  indent ++ [8226%N]
  ++ lit " <b>Critical items (&lt; 5 units):</b> Immediate reorder required<br/>"
  ++ indent ++ [8226%N]
  ++ lit " <b>Low stock items (&lt; 10 units):</b> Schedule reorder within 1-2 weeks<br/>"
  ++ indent ++ [8226%N]
  ++ lit " <b>Suggested reorder quantities:</b> Shown in " ++ [34%N]
  ++ lit "Reorder" ++ [34%N] ++ lit " column<br/>"
  ++ indent ++ [8226%N]
  ++ lit " <b>Review pricing:</b> Consider bulk purchase discounts for frequently low-stock items"
  ++ indent.

Definition generate_low_stock_report (w : World) (products : list Product)
    : exn + document :=
  (* Filter low stock products *)
  let low_stock_products := filter (fun p => qty p < 10) products in
  let title :=
    Paragraph ([9888; 65039]%N ++ lit " Low Stock Alert Report")
      (lit "CustomTitle") in
  let subtitle_text :=
    lit "Generated on " ++ strftime_report (wall_clock w)
    ++ lit "<br/>Low Stock Items: " ++ str_of_int (len low_stock_products) in
  let subtitle := Paragraph subtitle_text (lit "CustomSubtitle") in
  let head := [title; subtitle; Spacer 1 (0.3 * inch)] in
  match low_stock_products with
  | [] =>
      (* No low stock items *)
      let no_items_text :=
        lit "<para align=center><b>" ++ [10003%N]
        ++ lit " All products are adequately stocked!</b><br/><br/>No items with quantity below 10.</para>" in
      inr (mk_document (0.5 * inch) (0.5 * inch)
             (head ++ [Paragraph no_items_text (lit "Normal")] ++ footer))
  | _ :: _ =>
      (* Summary *)
      match total_of low_stock_products with
      | inl e => inl e
      | inr total_low_stock_value =>
      let critical_items := count_below 5 low_stock_products in
      let summary_data :=
        [map lit ["Low Stock Items"; "Critical Items (< 5)";
                  "Total Value at Risk"]%string;
         [str_of_int (len low_stock_products); str_of_int critical_items;
          lit "$" ++ format_2f true total_low_stock_value]] in
      let summary_table :=
        Table summary_data [2 * inch; 2 * inch; 2 * inch]%float 0
          [style "BACKGROUND" (0, 0) (-1, 0) [hex "#ff9800"];
           style "TEXTCOLOR" (0, 0) (-1, 0) [AColor whitesmoke];
           style "ALIGN" (0, 0) (-1, -1) [AText (lit "CENTER")];
           style "FONTNAME" (0, 0) (-1, 0) [AText (lit "Helvetica-Bold")];
           style "FONTSIZE" (0, 0) (-1, 0) [AInt 11];
           style "BOTTOMPADDING" (0, 0) (-1, 0) [AInt 12];
           style "BACKGROUND" (0, 1) (-1, -1) [hex "#fff5f5"];
           style "TEXTCOLOR" (0, 1) (-1, -1) [hex "#ff9800"];
           style "FONTNAME" (0, 1) (-1, -1) [AText (lit "Helvetica-Bold")];
           style "FONTSIZE" (0, 1) (-1, -1) [AInt 14];
           style "GRID" (0, 0) (-1, -1) [AInt 1; hex "#ff9800"];
           style "TOPPADDING" (0, 1) (-1, -1) [AInt 10];
           style "BOTTOMPADDING" (0, 1) (-1, -1) [AInt 10]] in
      (* Sort by quantity (lowest first) *)
      let low_stock_products := sort_by qty low_stock_products in
      (* Product table *)
      match rows_of low_stock_row low_stock_products with
      | inl e => inl e
      | inr rows =>
      let data := low_stock_header :: rows in
      let col_widths :=
        [0.9 * inch; 0.4 * inch; 1.8 * inch; 1.1 * inch; 0.5 * inch;
         0.7 * inch; 0.9 * inch; 0.7 * inch]%float in
      let table_style :=
        [style "BACKGROUND" (0, 0) (-1, 0) [hex "#ff9800"];
         style "TEXTCOLOR" (0, 0) (-1, 0) [AColor whitesmoke];
         style "ALIGN" (0, 0) (-1, 0) [AText (lit "CENTER")];
         style "FONTNAME" (0, 0) (-1, 0) [AText (lit "Helvetica-Bold")];
         style "FONTSIZE" (0, 0) (-1, 0) [AInt 9];
         style "BOTTOMPADDING" (0, 0) (-1, 0) [AInt 10];
         style "TOPPADDING" (0, 0) (-1, 0) [AInt 10];
         style "BACKGROUND" (0, 1) (-1, -1) [AColor white];
         style "TEXTCOLOR" (0, 1) (-1, -1) [hex "#2c3e50"];
         style "ALIGN" (0, 1) (1, -1) [AText (lit "CENTER")];
         style "ALIGN" (2, 1) (3, -1) [AText (lit "LEFT")];
         style "ALIGN" (4, 1) (-1, -1) [AText (lit "CENTER")];
         style "FONTNAME" (0, 1) (-1, -1) [AText (lit "Helvetica")];
         style "FONTSIZE" (0, 1) (-1, -1) [AInt 9];
         style "TOPPADDING" (0, 1) (-1, -1) [AInt 6];
         style "BOTTOMPADDING" (0, 1) (-1, -1) [AInt 6];
         style "GRID" (0, 0) (-1, -1) [AFloat 0.5; AColor grey];
         style "ROWBACKGROUNDS" (0, 1) (-1, -1)
           [AColors [HexColor (lit "#fff5f5"); HexColor (lit "#ffe8e8")]]]
        (* Highlight critical items *)
        ++ highlight 5 0 "#dc2626" low_stock_products in
      inr (mk_document (0.5 * inch) (0.5 * inch)
             (head
              ++ [summary_table; Spacer 1 (0.4 * inch);
                  Paragraph (lit "Products Requiring Attention")
                    (lit "CustomHeader");
                  Spacer 1 (0.1 * inch);
                  Table data col_widths 1 table_style;
                  (* Recommendations *)
                  Spacer 1 (0.3 * inch);
                  Paragraph ([128203%N] ++ lit " Recommendations")
                    (lit "CustomHeader");
                  Paragraph recommendations_text (lit "Normal")]
              ++ footer))
      end end
  end.

(** The low-stock table of a report, if it has one: the only [Table]
    that repeats its header row. *)
Definition data_table (d : document) : option (list (list str)) :=
  head (omap (fun f => match f with
                       | Table data _ 1 _ => Some data
                       | _ => None
                       end) (story d)).

End pdf_generator.

(** Summation left to right in binary64, one instance of [sum]. *)
Definition sequential_sum (l : list float) : float :=
  fold_left PrimFloat.add l 0%float.

(* ===================================================================== *)
(** * Reference definitions, following the specification's wording *)
(* ===================================================================== *)

(** A filter that is present contributes one condition with the
    arguments of its placeholders; an absent one contributes nothing. *)
Definition clause (present : bool) (condition : string) (args : list value)
  : list (str * list value) :=
  if present then [(lit condition, args)] else [].

(** The filters in the specified order: category, price bounds (min then
    max), quantity bounds (min then max), search (two placeholders with
    the same wildcarded value), low-stock (a literal condition). *)
Definition spec_filter_clauses (repr_float : float -> str)
    (filters : gmap str value) : list (str * list value) :=
  let wildcarded :=
    VStr (lit "%" ++ format_value repr_float (dict_get filters "search")
          ++ lit "%") in
  clause (truthy (dict_get filters "category")) "category = %s"
    [dict_get filters "category"]
  ++ clause (is_not_None (dict_get filters "min_price")) "price >= %s"
       [dict_get filters "min_price"]
  ++ clause (is_not_None (dict_get filters "max_price")) "price <= %s"
       [dict_get filters "max_price"]
  ++ clause (is_not_None (dict_get filters "min_quantity")) "quantity >= %s"
       [dict_get filters "min_quantity"]
  ++ clause (is_not_None (dict_get filters "max_quantity")) "quantity <= %s"
       [dict_get filters "max_quantity"]
  ++ clause (truthy (dict_get filters "search"))
       "(name LIKE %s OR description LIKE %s)" [wildcarded; wildcarded]
  ++ clause (truthy (dict_get filters "low_stock")) "quantity < 10" [].

(** The statement for a list of clauses: the base statement alone when
    there is none, else the conditions joined after [WHERE]. *)
Definition spec_statement (base_query : str)
    (clauses : list (str * list value)) : str * list value :=
  match clauses with
  | [] => (base_query, [])
  | _ =>
      (base_query ++ lit " WHERE " ++ join (lit " AND ") (map fst clauses),
       concat (map snd clauses))
  end.

(** Ascending by key. *)
Fixpoint ascending {A} (key : A -> Z) (l : list A) : Prop :=
  match l with
  | [] => True
  | x :: rest => Forall (fun y => key x <= key y) rest /\ ascending key rest
  end.

(** The two priority labels of the low-stock report, as printed (a
    coloured mark, a space and the word). *)
Definition label_critical : str := [128308%N] ++ lit " Critical".
Definition label_low : str := [128993%N] ++ lit " Low".

(** A store that only records the statements sent to it, with their
    arguments, and answers with no rows. *)
Definition recording_run (query : str) (args : list value)
    (sent : list (str * list value))
  : str + (list (str * list value) * cursor product_row) :=
  inr (sent ++ [(query, args)], mk_cursor [] 0 0).

(** The [WHERE] part of the list-products statement and the arguments of
    its placeholders: the constant condition, then the filters that are
    set. *)
Definition spec_list_where (category search : option str)
    (low_stock : option bool) : str * list value :=
  let category_set := match category with Some (_ :: _) => true | _ => false end in
  let search_set := match search with Some (_ :: _) => true | _ => false end in
  let wildcarded := VStr (lit "%" ++ default [] search ++ lit "%") in
  (lit " WHERE 1=1"
   ++ (if category_set then lit " AND category = %s" else [])
   ++ (if search_set then lit " AND (name LIKE %s OR description LIKE %s)"
       else [])
   ++ (if bool_decide (low_stock = Some true) then lit " AND quantity < 10"
       else []),
   (if category_set then [VStr (default [] category)] else [])
   ++ (if search_set then [wildcarded; wildcarded] else [])).

(* ===================================================================== *)
(** * Sample data *)
(* ===================================================================== *)

Definition sample_clock : datetime := mk_datetime 2026 11 3 14 5 9 0.


Definition empty_store : Store := mk_Store ∅ 1 sample_clock None.

Definition widget : ProductBase.fields :=
  ProductBase.mk_fields (lit "Widget") (lit "Tools") 3 4 None.

Definition widget_row (i : Z) : product_row :=
  mk_row i (lit "Widget") (lit "Tools") 3 4 None sample_clock sample_clock.

Definition store_with_widget : Store :=
  mk_Store {[ 1 := widget_row 1 ]} 2 sample_clock None.

Definition no_fields : ProductUpdate.fields :=
  ProductUpdate.mk_fields None None None None None.

Definition empty_store_after_delete : Store := mk_Store ∅ 2 sample_clock None.

Definition sample_products : list Product :=
  [mk_Product 2
     (ProductBase.mk_fields (lit "Gadget") (lit "Tools") 50 2 None)
     sample_clock sample_clock;
   mk_Product 7
     (ProductBase.mk_fields (lit "Bolt") (lit "Hardware") 3 4 None)
     sample_clock sample_clock].


(* ===================================================================== *)
(** * models.py: the pagination model *)
(* ===================================================================== *)

(** A bound of [Field(ge=..., le=...)] or [Query(ge=..., le=...)] on an
    [int] that was not met. *)
Inductive range_error :=
| below (bound : Z)
| above (bound : Z).

(** [ge] and, when given, [le] on an [int]. *)
Definition in_range (ge : Z) (le : option Z) (v : Z) : range_error + Z :=
  if v <? ge then inl (below ge)
  else match le with
       | Some hi => if hi <? v then inl (above hi) else inr v
       | None => inr v
       end.

Definition range_errors_of (field : string) (r : range_error + Z)
  : list (str * range_error) :=
  match r with inl e => [(lit field, e)] | inr _ => [] end.

Module PaginationParams.

Record fields := mk_fields { page : Z; limit : Z }.

(** [page: int = Field(1, ge=1)], [limit: int = Field(10, ge=1, le=100)];
    a field that is not given takes its default. *)
Definition init (page_given limit_given : option Z)
  : list (str * range_error) + fields :=
  let p := match page_given with
           | Some v => in_range 1 None v
           | None => inr 1
           end in
  let l := match limit_given with
           | Some v => in_range 1 (Some 100) v
           | None => inr 10
           end in
  match p, l with
  | inr p', inr l' => inr (mk_fields p' l')
  | _, _ => inl (range_errors_of "page" p ++ range_errors_of "limit" l)
  end.

(** The [skip] property. *)
Definition skip (self : fields) : Z := (page self - 1) * limit self.

End PaginationParams.

(** The [skip] and [limit] parameters of [get_products]:
    [Query(0, ge=0)] and [Query(100, ge=1, le=1000)]. *)
Definition get_products_paging (skip_given limit_given : option Z)
  : list (str * range_error) + (Z * Z) :=
  let s := match skip_given with
           | Some v => in_range 0 None v
           | None => inr 0
           end in
  let l := match limit_given with
           | Some v => in_range 1 (Some 1000) v
           | None => inr 100
           end in
  match s, l with
  | inr s', inr l' => inr (s', l')
  | _, _ => inl (range_errors_of "skip" s ++ range_errors_of "limit" l)
  end.

(* ===================================================================== *)
(** * utils.py: sanitising and the inventory value *)
(* ===================================================================== *)



(** The built-in exceptions the helpers meet. *)
Module builtins.
Inductive error :=
| ValueError
| TypeError
| OverflowError.
End builtins.

(** [int(f)] for a float: truncation towards zero. *)
Definition int_of_float (f : float) : builtins.error + Z :=
  match Prim2SF f with
  | S754_nan => inl builtins.ValueError
  | S754_infinity _ => inl builtins.OverflowError
  | S754_zero _ => inr 0
  | S754_finite s m e =>
      let magnitude :=
        if 0 <=? e then Z.pos m * 2 ^ e else Z.pos m / 2 ^ (- e) in
      inr (if s then - magnitude else magnitude)
  end.

Section conversions.

(** Reading a number from text is the runtime's: [int_of_str s] is
    [int(s)] and [float_of_str s] is [float(s)], [None] standing for
    the [ValueError] of a text that is no number. *)
Variable int_of_str : str -> option Z.
Variable float_of_str : str -> option float.

(** [int(v)]. *)
Definition py_int (v : value) : builtins.error + Z :=
  match v with
  | VNone => inl builtins.TypeError
  | VBool b => inr (if b then 1 else 0)
  | VInt z => inr z
  | VFloat f => int_of_float f
  | VStr s =>
      match int_of_str s with
      | Some z => inr z
      | None => inl builtins.ValueError
      end
  end.

(** [float(v)]. *)
Definition py_float (v : value) : builtins.error + float :=
  match v with
  | VNone => inl builtins.TypeError
  | VBool b => inr (if b then 1 else 0)%float
  | VInt z =>
      match float_of_int z with
      | Some f => inr f
      | None => inl builtins.OverflowError
      end
  | VFloat f => inr f
  | VStr s =>
      match float_of_str s with
      | Some f => inr f
      | None => inl builtins.ValueError
      end
  end.

(** [except (ValueError, TypeError)]. *)
Definition is_value_or_type_error (e : builtins.error) : bool :=
  match e with
  | builtins.ValueError | builtins.TypeError => true
  | _ => false
  end.

(** [data.get(key, default)]. *)
Definition get_or (data : gmap str value) (key : string) (default : value)
  : value :=
  match data !! lit key with
  | Some v => v
  | None => default
  end.

(** The body of the [try] of [calculate_inventory_value]:
    [int(product.get('quantity', 0)) * float(product.get('price', 0))];
    the product of an [int] and a [float] converts the [int] first. *)
Definition entry_value (product : gmap str value) : builtins.error + float :=
  match py_int (get_or product "quantity" (VInt 0)) with
  | inl e => inl e
  | inr quantity =>
      match py_float (get_or product "price" (VInt 0)) with
      | inl e => inl e
      | inr price =>
          match float_of_int quantity with
          | Some q => inr (q * price)%float
          | None => inl builtins.OverflowError
          end
      end
  end.

(** The loop of [calculate_inventory_value], from the running total. *)
Fixpoint inventory_total (total : float) (products : list (gmap str value))
  : builtins.error + float :=
  match products with
  | [] => inr total
  | product :: rest =>
      match entry_value product with
      | inr v => inventory_total (total + v)%float rest
      | inl e =>
          if is_value_or_type_error e then inventory_total total rest
          else inl e
      end
  end.

Definition calculate_inventory_value (products : list (gmap str value))
  : builtins.error + float :=
  match inventory_total 0%float products with
  | inr total => inr (round2 total)
  | inl e => inl e
  end.

End conversions.

(** A reading of unsigned decimal digit strings, one instance of the
    text parsing of [int]. *)
Definition digits_int (s : str) : option Z :=
  match s with
  | [] => None
  | _ =>
      foldl (fun acc c =>
               match acc with
               | Some z =>
                   if ((48 <=? c) && (c <=? 57))%N
                   then Some (10 * z + (Z.of_N c - 48))
                   else None
               | None => None
               end) (Some 0) s
  end.

Definition digits_float (s : str) : option float :=
  match digits_int s with
  | Some z => float_of_int z
  | None => None
  end.


(** Entries of a product list: one well formed, one whose quantity is
    no number, one whose quantity is infinite. *)
Definition good_entry : gmap str value :=
  <[lit "quantity" := VInt 3]> (<[lit "price" := VFloat 2.5]> ∅).
Definition bad_entry : gmap str value :=
  <[lit "quantity" := VStr (lit "many")]> (<[lit "price" := VFloat 2.5]> ∅).
Definition endless_entry : gmap str value :=
  <[lit "quantity" := VFloat infinity]> (<[lit "price" := VFloat 2.5]> ∅).

(** An engine that answers every statement with the same rows. *)
Definition answering_run (rows : list product_row) (query : str)
    (args : list value) (s : unit) : str + (unit * cursor product_row) :=
  inr (s, mk_cursor rows (len rows) 0).

(** A stored row whose name is blank. *)
Definition blank_row : product_row :=
  mk_row 2 (lit "  ") (lit "Tools") 1 1 None sample_clock sample_clock.
(* ===================================================================== *)
(** * Properties *)
(* ===================================================================== *)

(** ** Sanity checks of the value model *)

Example round2_ties : round2 0.125 = 0.12%float.
Proof. reflexivity. Qed.

Example format_2f_grouped :
  format_2f true 1234567.5 = lit "1,234,567.50".
Proof. reflexivity. Qed.

Example format_2f_plain : format_2f false 4 = lit "4.00".
Proof. reflexivity. Qed.

Example float_of_int_3 : float_of_int 3 = Some 3%float.
Proof. reflexivity. Qed.

Example create_rounds_price :
  ProductCreate.init
    (ProductBase.mk_fields (lit " Widget ") (lit "Tools") 3 19.999 None)
  = inr (ProductBase.mk_fields (lit "Widget") (lit "Tools") 3 20 None).
Proof. reflexivity. Qed.

(* ===================================================================== *)
(** ** Trimming *)
(* ===================================================================== *)

Lemma lstrip_idempotent (s : str) : lstrip (lstrip s) = lstrip s.
Proof.
  induction s as [|c s IH]; simpl; [done|].
  destruct (isspace c) eqn:E; [done|]. simpl. by rewrite E.
Qed.

Lemma lstrip_snoc (l : str) (c : N) :
  isspace c = false -> lstrip (l ++ [c]) = lstrip l ++ [c].
Proof.
  intros Hc. induction l as [|a l IH]; simpl.
  - by rewrite Hc.
  - destruct (isspace a); [exact IH|done].
Qed.

Lemma lstrip_length (s : str) : (length (lstrip s) <= length s)%nat.
Proof.
  induction s as [|c s IH]; simpl; [lia|].
  destruct (isspace c); simpl; lia.
Qed.

(** A string that [lstrip] leaves alone keeps that property under
    [rstrip]. *)
Lemma lstrip_rstrip (t : str) : lstrip t = t -> lstrip (rstrip t) = rstrip t.
Proof.
  unfold rstrip. destruct t as [|c t]; [done|].
  simpl. destruct (isspace c) eqn:E.
  - intros H. pose proof (lstrip_length t) as L.
    rewrite H in L. simpl in L. lia.
  - intros _. rewrite (lstrip_snoc _ _ E), rev_app_distr. simpl. by rewrite E.
Qed.

Lemma strip_idempotent (s : str) : strip (strip s) = strip s.
Proof.
  unfold strip.
  rewrite (lstrip_rstrip (lstrip s) (lstrip_idempotent s)).
  unfold rstrip. by rewrite rev_involutive, lstrip_idempotent.
Qed.

Lemma strip_length (s : str) : (length (strip s) <= length s)%nat.
Proof.
  unfold strip, rstrip. rewrite length_rev.
  etransitivity; [apply lstrip_length|].
  rewrite length_rev. apply lstrip_length.
Qed.

(* ===================================================================== *)
(** ** models.py *)
(* ===================================================================== *)

#[local] Arguments Field_str : simpl never.
#[local] Arguments Field_ge : simpl never.
#[local] Arguments Field_gt : simpl never.
#[local] Arguments strip : simpl never.
#[local] Arguments round2 : simpl never.
#[local] Arguments lit : simpl never.
#[local] Arguments str_of_int : simpl never.

Lemma Field_str_inr lo hi v w :
  Field_str lo hi v = inr w ->
  w = v /\ (forall n, lo = Some n -> n <= len v)
  /\ (forall m, hi = Some m -> len v <= m).
Proof.
  unfold Field_str. intros H.
  destruct lo as [n|], hi as [m|];
    repeat match type of H with
           | context [if ?b then _ else _] => destruct b eqn:?
           end; simplify_eq; repeat split; intros; simplify_eq; lia.
Qed.

Lemma Field_str_ok lo hi v :
  (forall n, lo = Some n -> n <= len v) ->
  (forall m, hi = Some m -> len v <= m) ->
  Field_str lo hi v = inr v.
Proof.
  intros Hlo Hhi. unfold Field_str.
  destruct lo as [n|], hi as [m|]; try done.
  - specialize (Hlo n eq_refl). specialize (Hhi m eq_refl).
    destruct (len v <? n) eqn:E1; [lia|].
    destruct (m <? len v) eqn:E2; [lia|done].
  - specialize (Hlo n eq_refl). destruct (len v <? n) eqn:E1; [lia|done].
  - specialize (Hhi m eq_refl). destruct (m <? len v) eqn:E2; [lia|done].
Qed.

Lemma Field_gt_0 (v : float) :
  Field_gt 0 v = if (0 <? v)%float then inr v else inl (gt_violated 0).
Proof. reflexivity. Qed.

(** Closes a goal whose model was refused. *)
Ltac refused_model :=
  let H := fresh in
  intros H; cbn in H;
  first [discriminate H | revert H; repeat case_match; discriminate].

(** What an accepted [ProductBase] says about the fields it was built
    from. *)
Lemma ProductBase_init_inr raw p :
  ProductBase.init raw = inr p ->
  (ProductBase.name p = strip (ProductBase.name raw)
   /\ strip (ProductBase.name raw) <> []
   /\ 1 <= len (ProductBase.name raw) <= 255)
  /\ (ProductBase.category p = strip (ProductBase.category raw)
      /\ strip (ProductBase.category raw) <> []
      /\ 1 <= len (ProductBase.category raw) <= 100)
  /\ (ProductBase.quantity p = ProductBase.quantity raw
      /\ 0 <= ProductBase.quantity raw)
  /\ (ProductBase.price p = round2 (ProductBase.price raw)
      /\ (0 <? ProductBase.price raw)%float = true
      /\ (ProductBase.price raw <=? 0)%float = false)
  /\ (ProductBase.description p = ProductBase.description raw
      /\ forall d, ProductBase.description raw = Some d -> len d <= 1000).
Proof.
  unfold ProductBase.init. destruct raw as [n c q pr d]. simpl.
  destruct (Field_str (Some 1) (Some 255) n) as [?|n0] eqn:Hn; simpl;
    [refused_model|].
  apply Field_str_inr in Hn as (-> & Hn1 & Hn2).
  unfold ProductBase.validate_name at 1.
  destruct (bool_decide (strip n = [])) eqn:En;
    [refused_model|].
  apply bool_decide_eq_false in En.
  destruct (Field_str (Some 1) (Some 100) c) as [?|c0] eqn:Hc; simpl;
    [refused_model|].
  apply Field_str_inr in Hc as (-> & Hc1 & Hc2).
  unfold ProductBase.validate_category at 1.
  destruct (bool_decide (strip c = [])) eqn:Ec;
    [refused_model|].
  apply bool_decide_eq_false in Ec.
  unfold Field_ge. destruct (0 <=? q) eqn:Eq; simpl;
    [|refused_model].
  unfold ProductBase.validate_quantity at 1.
  destruct (q <? 0) eqn:Eq'; [lia|].
  rewrite Field_gt_0.
  destruct (0 <? pr)%float eqn:Ep; simpl;
    [|refused_model].
  unfold ProductBase.validate_price at 1.
  destruct (pr <=? 0)%float eqn:Ep'; [refused_model|].
  destruct d as [d|]; simpl.
  - destruct (Field_str None (Some 1000) d) as [?|d0] eqn:Hd; [done|].
    apply Field_str_inr in Hd as (-> & _ & Hd).
    intros [= <-]. simpl. repeat split; try done; try lia.
    + apply (Hn1 1 eq_refl). + apply (Hn2 255 eq_refl).
    + apply (Hc1 1 eq_refl). + apply (Hc2 100 eq_refl).
    + intros ? [= <-]. apply (Hd 1000 eq_refl).
  - intros [= <-]. simpl. repeat split; try done; try lia.
    + apply (Hn1 1 eq_refl). + apply (Hn2 255 eq_refl).
    + apply (Hc1 1 eq_refl). + apply (Hc2 100 eq_refl).
Qed.

(** The price of an accepted [ProductUpdate]. *)
Lemma ProductUpdate_init_price raw u :
  ProductUpdate.init raw = inr u ->
  ProductUpdate.price u = round2 <$> ProductUpdate.price raw.
Proof.
  unfold ProductUpdate.init.
  destruct (and_then (optionally (Field_str (Some 1) (Some 255))
                        (ProductUpdate.name raw)) ProductUpdate.validate_name);
    [refused_model|].
  destruct (and_then (optionally (Field_str (Some 1) (Some 100))
                        (ProductUpdate.category raw))
              ProductUpdate.validate_category); [refused_model|].
  destruct (and_then (optionally (Field_ge 0) (ProductUpdate.quantity raw))
              ProductUpdate.validate_quantity); [refused_model|].
  destruct (ProductUpdate.price raw) as [v|]; simpl.
  - rewrite Field_gt_0. destruct (0 <? v)%float; simpl; [|refused_model].
    destruct (v <=? 0)%float; [refused_model|].
    destruct (optionally _ _); [done|]. by intros [= <-].
  - destruct (optionally _ _); [done|]. by intros [= <-].
Qed.




(** C5, at the input that breaks it: a creation request and an update
    request with price [0.004] both pass validation (the price is
    positive when it is tested), and the validated model holds the price
    rounded afterwards, [0.0], which is not greater than zero. *)
Theorem validated_price_can_be_zero :
  ProductCreate.init
    (ProductBase.mk_fields (lit "Widget") (lit "Tools") 3 0.004 None)
  = inr (ProductBase.mk_fields (lit "Widget") (lit "Tools") 3 0 None)
  /\ ProductUpdate.init
       (ProductUpdate.mk_fields None None None (Some 0.004%float) None)
     = inr (ProductUpdate.mk_fields None None None (Some 0%float) None)
  /\ (0 <? 0.004)%float = true
  /\ (0 <? 0)%float = false.
Proof. repeat split; reflexivity. Qed.

(* ===================================================================== *)
(** ** utils.py and the list-products statement *)
(* ===================================================================== *)

(** C3: for every base statement and filter set, the builder returns the
    statement and argument list of the specified clause order (category,
    min and max price, min and max quantity, search, low-stock); each
    clause has as many placeholders as arguments, so the arguments match
    the placeholders left to right; the two search arguments are the same
    wildcarded value; and with no filter set the base statement comes
    back unchanged with no argument. *)
Theorem build_search_query_order :
  forall (repr_float : float -> str) (base_query : str)
         (filters : gmap str value),
    let clauses := spec_filter_clauses repr_float filters in
    build_search_query repr_float base_query filters
      = spec_statement base_query clauses
    /\ Forall (fun c => count_placeholders c.1 = length c.2) clauses
    /\ ((forall key, dict_get filters key = VNone) ->
        build_search_query repr_float base_query filters = (base_query, [])).
Proof.
  intros repr_float base_query filters clauses. subst clauses.
  unfold build_search_query, spec_filter_clauses, add_if, clause.
  split; [|split].
  - destruct (truthy (dict_get filters "category")),
      (is_not_None (dict_get filters "min_price")),
      (is_not_None (dict_get filters "max_price")),
      (is_not_None (dict_get filters "min_quantity")),
      (is_not_None (dict_get filters "max_quantity")),
      (truthy (dict_get filters "search")),
      (truthy (dict_get filters "low_stock")); reflexivity.
  - destruct (truthy (dict_get filters "category")),
      (is_not_None (dict_get filters "min_price")),
      (is_not_None (dict_get filters "max_price")),
      (is_not_None (dict_get filters "min_quantity")),
      (is_not_None (dict_get filters "max_quantity")),
      (truthy (dict_get filters "search")),
      (truthy (dict_get filters "low_stock"));
      repeat (apply Forall_cons; split; [reflexivity|]); apply Forall_nil;
      exact I.
  - intros Hnone. rewrite !Hnone. reflexivity.
Qed.

Lemma build_search_query_order_witness :
  build_search_query (fun _ => []) (lit "SELECT * FROM products") ∅
  = (lit "SELECT * FROM products", []).
Proof.
  apply (build_search_query_order (fun _ => []) (lit "SELECT * FROM products") ∅).
  intros key. reflexivity.
Defined.

(** C9: for every list-products request the statement is the [SELECT]
    with its [WHERE] part followed, last, by the ordering and the two
    pagination placeholders, and the argument list is the arguments of
    the [WHERE] part (as many as it has placeholders) followed by
    [limit] and [skip] in that order; this is the statement the handler
    sends to the store.  With [skip=10] and [limit=5] the argument list
    ends in [5, 10]. *)
Theorem pagination_appended_last :
  forall (skip limit : Z) (category search : option str)
         (low_stock : option bool),
    let filters := spec_list_where category search low_stock in
    get_products_query skip limit category search low_stock
      = (lit "SELECT * FROM products" ++ filters.1
         ++ lit " ORDER BY created_at DESC LIMIT %s OFFSET %s",
         filters.2 ++ [VInt limit; VInt skip])
    /\ count_placeholders filters.1 = length filters.2
    /\ (get_products recording_run (fun _ => None) skip limit category search
          low_stock []).2
       = [get_products_query skip limit category search low_stock]
    /\ (get_products_query 10 5 category search low_stock).2
       = filters.2 ++ [VInt 5; VInt 10].
Proof.
  intros skip limit category search low_stock filters. subst filters.
  assert (H : forall skip limit,
    get_products_query skip limit category search low_stock
    = (lit "SELECT * FROM products"
       ++ (spec_list_where category search low_stock).1
       ++ lit " ORDER BY created_at DESC LIMIT %s OFFSET %s",
       (spec_list_where category search low_stock).2
       ++ [VInt limit; VInt skip])).
  { intros sk li.
    destruct category as [[|c0 c]|], search as [[|s0 s]|],
      low_stock as [[|]|]; reflexivity. }
  split; [apply H|]. split; [|split].
  - destruct category as [[|c0 c]|], search as [[|s0 s]|],
      low_stock as [[|]|]; reflexivity.
  - destruct category as [[|c0 c]|], search as [[|s0 s]|],
      low_stock as [[|]|]; reflexivity.
  - by rewrite H.
Qed.

(** C10: for every combination of the other parameters, [low_stock]
    set to [False] gives the list-products handler the same statement
    and arguments (hence the same behaviour on any store) as [low_stock]
    absent, and the query builder returns the same pair for a filter set
    with [low_stock: False] as for the set without the key: no condition
    on the quantity is added. *)
Theorem low_stock_false_is_absent :
  (forall skip limit category search,
     get_products_query skip limit category search (Some false)
     = get_products_query skip limit category search None)
  /\ (forall (State : Type) run (unavailable : State -> option str)
             skip limit category search,
        get_products run unavailable skip limit category search (Some false)
        = get_products run unavailable skip limit category search None)
  /\ (forall repr_float base_query (filters : gmap str value),
        build_search_query repr_float base_query
          (<[lit "low_stock" := VBool false]> filters)
        = build_search_query repr_float base_query
            (delete (lit "low_stock") filters)).
Proof.
  split; [|split].
  - reflexivity.
  - reflexivity.
  - intros repr_float base_query filters.
    assert (Hother : forall key : string,
      lit key <> lit "low_stock" ->
      dict_get (<[lit "low_stock" := VBool false]> filters) key
      = dict_get (delete (lit "low_stock") filters) key).
    { intros key Hne. unfold dict_get.
      by rewrite lookup_insert_ne, lookup_delete_ne. }
    assert (Hkey :
      truthy (dict_get (<[lit "low_stock" := VBool false]> filters) "low_stock")
      = truthy (dict_get (delete (lit "low_stock") filters) "low_stock")).
    { unfold dict_get. by rewrite lookup_insert_eq, lookup_delete_eq. }
    unfold build_search_query.
    rewrite Hkey.
    rewrite (Hother "category"%string), (Hother "min_price"%string),
      (Hother "max_price"%string), (Hother "min_quantity"%string),
      (Hother "max_quantity"%string), (Hother "search"%string)
      by (vm_compute; discriminate).
    reflexivity.
Qed.

(* ===================================================================== *)
(** ** database.py: the transaction helper *)
(* ===================================================================== *)

Section transaction.

Context {State Row : Type}.
Variable run : str -> list value -> State -> str + (State * cursor Row).
Variable unavailable : State -> option str.

Abbreviation queries_t := (list (str * option (list value))).

(** The loop of the helper, on a session that does not commit by
    itself: it never touches the committed data, and its outcome is
    that of applying the statements in order to the session's view. *)
Lemma execute_each_spec (queries : queries_t) (c : Connection) :
  autocommit c = false ->
  match execute_each run queries c with
  | (inr _, c') =>
      run_all run queries (working c) = inr (working c')
      /\ committed c' = committed c /\ autocommit c' = false
  | (inl e, c') =>
      committed c' = committed c
      /\ exists msg, e = Error msg
                     /\ run_all run queries (working c) = inl msg
  end.
Proof.
  revert c. induction queries as [|[query params] rest IH]; intros c Hc.
  - simpl. done.
  - simpl. unfold cursor_execute.
    destruct (run query _ (working c)) as [msg|[s cur]] eqn:E.
    + split; [done|]. by exists msg.
    + rewrite Hc.
      specialize (IH (mk_Connection (committed c) s false) eq_refl).
      simpl in IH. exact IH.
Qed.

Lemma transaction_body_spec (queries : queries_t) (c : Connection) :
  match transaction_body run queries c with
  | (inr ok, c') =>
      ok = true /\ run_all run queries (working c) = inr (committed c')
  | (inl e, c') =>
      committed c' = committed c /\ working c' = committed c
      /\ exists msg, e = Error msg
                     /\ run_all run queries (working c) = inl msg
  end.
Proof.
  unfold transaction_body.
  pose proof (execute_each_spec queries (set_autocommit false c) eq_refl) as H.
  destruct (execute_each run queries (set_autocommit false c)) as [[e|[]] c'].
  - destruct H as (Hc & msg & -> & Hrun). simpl in *.
    repeat split; try done. by exists msg.
  - destruct H as (Hrun & _ & _). simpl in *. done.
Qed.

(** C2: for every sequence of statements, the helper either applies
    them all in order and commits the result (when the sequence runs
    through), or surfaces the error with the stored data exactly as it
    was before the call: when the body of the helper raises, the
    session has been rolled back to the committed data, and nothing of
    a sequence that failed is committed. *)
Theorem execute_transaction_all_or_nothing :
  forall (queries : queries_t) (db : State),
    (forall done_db,
       unavailable db = None -> run_all run queries db = inr done_db ->
       execute_transaction run unavailable queries db = (inr true, done_db))
    /\ (forall msg,
          unavailable db = None -> run_all run queries db = inl msg ->
          execute_transaction run unavailable queries db
          = (inl (Exception (lit "Transaction execution failed: ")
                    (Error msg)), db))
    /\ (forall ok db',
          execute_transaction run unavailable queries db = (inr ok, db') ->
          ok = true /\ run_all run queries db = inr db')
    /\ (forall e db',
          execute_transaction run unavailable queries db = (inl e, db') ->
          db' = db)
    /\ (forall c e c',
          transaction_body run queries c = (inl e, c') ->
          working c' = committed c /\ committed c' = committed c).
Proof.
  intros queries db.
  assert (Hbody := fun c => transaction_body_spec queries c).
  unfold execute_transaction, get_connection.
  split; [|split; [|split; [|split]]].
  - intros done_db -> Hrun.
    specialize (Hbody (mk_Connection db db true)). simpl in Hbody.
    destruct (transaction_body run queries _) as [[e|ok] c'].
    + destruct Hbody as (_ & _ & msg & _ & Hfail). congruence.
    + destruct Hbody as (-> & Hok). unfold close. congruence.
  - intros msg -> Hrun.
    specialize (Hbody (mk_Connection db db true)). simpl in Hbody.
    destruct (transaction_body run queries _) as [[e|ok] c'].
    + destruct Hbody as (Hc & _ & msg' & -> & Hfail). unfold close.
      congruence.
    + destruct Hbody as (_ & Hok). congruence.
  - intros ok db'. destruct (unavailable db); [done|].
    specialize (Hbody (mk_Connection db db true)). simpl in Hbody.
    destruct (transaction_body run queries _) as [[e|ok'] c']; [done|].
    intros [= -> <-]. apply Hbody.
  - intros e db'. destruct (unavailable db); [congruence|].
    specialize (Hbody (mk_Connection db db true)). simpl in Hbody.
    destruct (transaction_body run queries _) as [[e0|ok'] c']; [|done].
    intros [= _ <-]. apply Hbody.
  - intros c e c' H. specialize (Hbody c). rewrite H in Hbody.
    split; apply Hbody.
Qed.

End transaction.

Lemma execute_transaction_all_or_nothing_witness :
  Api.execute_transaction
    [(insert_product,
      Some [VStr (lit "Widget"); VStr (lit "Tools"); VInt 3; VFloat 4; VNone]);
     (delete_by_id, None)]
    empty_store
  = (inl (Exception (lit "Transaction execution failed: ") (Error refused)),
     empty_store).
Proof.
  apply (proj1 (proj2 (execute_transaction_all_or_nothing products_run fault
                         _ empty_store))); reflexivity.
Defined.

(* ===================================================================== *)
(** ** main.py over the store *)
(* ===================================================================== *)

Lemma products_run_select args s :
  products_run select_by_id args s = run_select args s.
Proof. reflexivity. Qed.

Lemma products_run_delete args s :
  products_run delete_by_id args s = run_delete args s.
Proof. reflexivity. Qed.

Lemma products_run_insert args s :
  products_run insert_product args s = run_insert args s.
Proof. reflexivity. Qed.

(** The three ways [get_product] ends on the store; it never changes it. *)
Lemma get_product_cases (product_id : Z) (s : Store) :
  (Api.get_product product_id s).2 = s
  /\ match fault s, table s !! product_id with
     | Some msg, _ =>
         (Api.get_product product_id s).1
         = inl (HTTPExceptionFrom 500 (lit "Failed to fetch product: ")
                  (Exception (lit "Query execution failed: ") (Error msg)))
     | None, None => (Api.get_product product_id s).1 = inl (not_found product_id)
     | None, Some row =>
         (Api.get_product product_id s).1
         = match Product_of_row row with
           | inr p => inr p
           | inl errs =>
               inl (HTTPExceptionFrom 500 (lit "Failed to fetch product: ")
                      (ModelError errs))
           end
     end.
Proof.
  unfold Api.get_product, get_product, api_boundary, bind, execute_query,
    execute_one, get_connection, cursor_execute.
  destruct (fault s) as [msg|] eqn:Hf; [done|].
  cbn [working]. rewrite products_run_select. unfold run_select.
  destruct (table s !! product_id) as [row|] eqn:Hrow; cbn.
  - destruct (Product_of_row row); done.
  - done.
Qed.

(** C4: an update request with no field set, on any store, changes
    nothing and fails; when the product exists (the store answers and
    holds a row for the identifier that reads as a [Product]) the failure
    is the client error 400 "No fields to update".  The request itself
    passes validation. *)
Theorem update_without_fields_rejected :
  forall (product_id : Z) (s : Store),
    ProductUpdate.init no_fields = inr no_fields
    /\ (Api.update_product product_id no_fields s).2 = s
    /\ (exists e, (Api.update_product product_id no_fields s).1 = inl e)
    /\ (forall row p,
          fault s = None -> table s !! product_id = Some row ->
          Product_of_row row = inr p ->
          Api.update_product product_id no_fields s
          = (inl (HTTPException 400 (lit "No fields to update")), s)).
Proof.
  intros product_id s.
  pose proof (get_product_cases product_id s) as [Hs Hr].
  unfold Api.update_product, update_product, api_boundary, bind.
  change (get_product products_run fault product_id s)
    with (Api.get_product product_id s).
  destruct (Api.get_product product_id s) as [[e|p0] s'] eqn:E;
    simpl in Hs, Hr; subst s'.
  - split; [done|]. split; [done|]. split; [by eexists|].
    intros row p Hf Hrow Hp. rewrite Hf, Hrow, Hp in Hr. done.
  - split; [done|]. split; [done|]. split; [by eexists|]. done.
Qed.

Lemma update_without_fields_rejected_witness :
  Api.update_product 1 no_fields store_with_widget
  = (inl (HTTPException 400 (lit "No fields to update")), store_with_widget).
Proof.
  apply (proj2 (proj2 (proj2
           (update_without_fields_rejected 1 store_with_widget)))
           (widget_row 1)
           (mk_Product 1 widget sample_clock sample_clock));
    reflexivity.
Defined.

(** What a successful [delete_product] did. *)
Lemma delete_product_inr (product_id : Z) (s s' : Store) (msg : str) :
  Api.delete_product product_id s = (inr msg, s') ->
  fault s = None
  /\ (exists row, table s !! product_id = Some row)
  /\ s' = mk_Store (delete product_id (table s)) (next_id s) (server_now s)
            (fault s).
Proof.
  pose proof (get_product_cases product_id s) as [Hs Hr].
  unfold Api.delete_product, delete_product, api_boundary, bind.
  change (get_product products_run fault product_id s)
    with (Api.get_product product_id s).
  destruct (Api.get_product product_id s) as [[e|p0] s0] eqn:E;
    simpl in Hs, Hr; subst s0; [done|].
  destruct (fault s) as [m|] eqn:Hf; [done|].
  destruct (table s !! product_id) as [row|] eqn:Hrow; [|done].
  unfold execute_update, execute_one, get_connection, cursor_execute.
  rewrite Hf. cbn [working]. rewrite products_run_delete.
  unfold run_delete. rewrite Hrow. cbn.
  intros [= _ <-]. rewrite Hf. eauto.
Qed.

(** C8: for every product identifier and store, if a delete of the
    identifier succeeds, then the row is gone and a second delete of the
    same identifier on the resulting store raises the not-found error
    (404) and leaves the store as it is. *)
Theorem second_delete_not_found :
  forall (product_id : Z) (s s' : Store) (msg : str),
    Api.delete_product product_id s = (inr msg, s') ->
    table s' !! product_id = None
    /\ Api.delete_product product_id s' = (inl (not_found product_id), s').
Proof.
  intros product_id s s' msg H.
  apply delete_product_inr in H as (Hf & _ & ->).
  assert (Hgone : delete product_id (table s) !! product_id = None)
    by apply lookup_delete_eq.
  split; [exact Hgone|].
  set (s' := mk_Store _ _ _ _).
  pose proof (get_product_cases product_id s') as [Hs Hr].
  unfold Api.delete_product, delete_product, api_boundary, bind.
  change (get_product products_run fault product_id s')
    with (Api.get_product product_id s').
  destruct (Api.get_product product_id s') as [r s0]. simpl in Hs, Hr.
  subst s0. rewrite Hf, Hgone in Hr. by rewrite Hr.
Qed.

Lemma second_delete_not_found_witness :
  table empty_store_after_delete !! 1 = None
  /\ Api.delete_product 1 empty_store_after_delete
     = (inl (not_found 1), empty_store_after_delete).
Proof.
  apply (second_delete_not_found 1 store_with_widget empty_store_after_delete
           (lit "Product 'Widget' deleted successfully")).
  reflexivity.
Defined.

(** A validated product whose price survives a second rounding is
    accepted again as it is: this is the re-validation of a stored row. *)
Lemma ProductBase_init_validated raw p :
  ProductBase.init raw = inr p ->
  (0 <? ProductBase.price p)%float = true ->
  (ProductBase.price p <=? 0)%float = false ->
  round2 (ProductBase.price p) = ProductBase.price p ->
  ProductBase.init p = inr p.
Proof.
  intros H Hpos Hpos' Hround.
  apply ProductBase_init_inr in H
    as ((Hn & Hn' & Hnl) & (Hc & Hc' & Hcl) & (Hq & Hq') & _ & (Hd & Hdl)).
  destruct p as [n c q pr d]. simpl in *. subst n c q d.
  unfold ProductBase.init. simpl.
  pose proof (strip_length (ProductBase.name raw)) as Ln.
  pose proof (strip_length (ProductBase.category raw)) as Lc.
  assert (Hlen : forall t : str, t <> [] -> 1 <= len t).
  { intros [|] ?; [done|]. unfold len. simpl. lia. }
  rewrite (Field_str_ok (Some 1) (Some 255) (strip (ProductBase.name raw)));
    [|intros ? [= <-]; by apply Hlen|intros ? [= <-]; unfold len in *; lia].
  rewrite (Field_str_ok (Some 1) (Some 100) (strip (ProductBase.category raw)));
    [|intros ? [= <-]; by apply Hlen|intros ? [= <-]; unfold len in *; lia].
  simpl. unfold ProductBase.validate_name, ProductBase.validate_category.
  rewrite !strip_idempotent.
  rewrite !bool_decide_eq_false_2 by done.
  unfold Field_ge. destruct (0 <=? ProductBase.quantity raw) eqn:E; [|lia].
  simpl. unfold ProductBase.validate_quantity.
  destruct (ProductBase.quantity raw <? 0) eqn:E'; [lia|].
  rewrite Field_gt_0, Hpos. simpl. unfold ProductBase.validate_price.
  rewrite Hpos', Hround.
  destruct (ProductBase.description raw) as [d|]; simpl; [|done].
  rewrite (Field_str_ok None (Some 1000) d);
    [done|done|intros ? [= <-]; by apply Hdl].
Qed.

(** Creating a validated product on a store that answers: the row is
    inserted under the next identifier and read back. *)
Lemma create_product_ok raw p s :
  ProductCreate.init raw = inr p ->
  (0 <? ProductBase.price p)%float = true ->
  (ProductBase.price p <=? 0)%float = false ->
  round2 (ProductBase.price p) = ProductBase.price p ->
  fault s = None ->
  let row := mk_row (next_id s) (ProductBase.name p) (ProductBase.category p)
               (ProductBase.quantity p) (ProductBase.price p)
               (ProductBase.description p) (server_now s) (server_now s) in
  Api.create_product p s
  = (inr (mk_Product (next_id s) p (server_now s) (server_now s)),
     mk_Store (<[next_id s := row]> (table s)) (next_id s + 1) (server_now s)
       None).
Proof.
  intros Hv Hpos Hpos' Hround Hf row.
  pose proof (ProductBase_init_inr _ _ Hv) as (_ & _ & (Hq & Hq') & _).
  set (s1 := mk_Store (<[next_id s := row]> (table s)) (next_id s + 1)
               (server_now s) None).
  pose proof (get_product_cases (next_id s) s1) as [Hs Hr].
  simpl in Hr. rewrite lookup_insert_eq in Hr.
  unfold Product_of_row, Product_init in Hr. simpl in Hr.
  assert (Hp : ProductBase.mk_fields (ProductBase.name p)
                 (ProductBase.category p) (ProductBase.quantity p)
                 (ProductBase.price p) (ProductBase.description p) = p)
    by (by destruct p).
  rewrite Hp, (ProductBase_init_validated raw p Hv Hpos Hpos' Hround) in Hr.
  unfold Api.create_product, create_product, api_boundary, bind, when.
  rewrite Hpos'. destruct (ProductBase.quantity p <? 0) eqn:E; [lia|].
  unfold ret at 1 2.
  unfold execute_insert, execute_one, get_connection, cursor_execute.
  rewrite Hf. cbn [working]. rewrite products_run_insert.
  unfold run_insert, value_of_optional_str.
  destruct (ProductBase.description p) eqn:Hd; cbn;
    rewrite Hf; fold row; fold s1;
    change (get_product products_run fault (next_id s) s1)
      with (Api.get_product (next_id s) s1);
    destruct (Api.get_product (next_id s) s1) as [r s2]; simpl in Hs, Hr;
    subst; done.
Qed.

(** C6: for every creation request and every update request that passes
    validation, the price of the validated model is the supplied price
    rounded to two decimals; [19.999] rounds to [20.0], and a validated
    creation request with price [19.999], on any store that answers, is
    stored and returned with price [20.0]. *)
Theorem accepted_price_is_rounded :
  (forall raw p,
     ProductCreate.init raw = inr p ->
     ProductBase.price p = round2 (ProductBase.price raw))
  /\ (forall raw u,
        ProductUpdate.init raw = inr u ->
        ProductUpdate.price u = round2 <$> ProductUpdate.price raw)
  /\ round2 19.999 = 20%float
  /\ (forall raw p s,
        ProductBase.price raw = 19.999%float ->
        ProductCreate.init raw = inr p ->
        fault s = None ->
        exists product s',
          Api.create_product p s = (inr product, s')
          /\ ProductBase.price (base product) = 20%float
          /\ row_price <$> table s' !! id product = Some 20%float).
Proof.
  split; [|split; [|split]].
  - intros raw p H. by apply ProductBase_init_inr in H as (_ & _ & _ & (? & _) & _).
  - apply ProductUpdate_init_price.
  - reflexivity.
  - intros raw p s Hprice Hv Hf.
    assert (Hp : ProductBase.price p = 20%float).
    { apply ProductBase_init_inr in Hv as (_ & _ & _ & (-> & _) & _).
      by rewrite Hprice. }
    eexists _, _. split.
    + apply (create_product_ok raw p s Hv); [rewrite Hp; reflexivity ..|done].
    + split; [exact Hp|]. cbn [id table].
      rewrite lookup_insert_eq. cbn. by rewrite Hp.
Qed.

Lemma accepted_price_is_rounded_witness :
  ProductBase.price
    (ProductBase.mk_fields (lit "Widget") (lit "Tools") 3 20 None)
  = round2
      (ProductBase.price
         (ProductBase.mk_fields (lit " Widget ") (lit "Tools") 3 19.999 None)).
Proof.
  apply (proj1 accepted_price_is_rounded
           (ProductBase.mk_fields (lit " Widget ") (lit "Tools") 3 19.999 None)).
  reflexivity.
Defined.

(* ===================================================================== *)
(** ** pdf_generator.py *)
(* ===================================================================== *)

Section sorting.

Context {A : Type} (key : A -> Z).

Lemma insert_by_perm (x : A) (l : list A) : insert_by key x l ≡ₚ x :: l.
Proof.
  induction l as [|y l IH]; simpl; [done|].
  destruct (key y <=? key x); [|done].
  rewrite IH. apply Permutation_swap.
Qed.

Lemma sort_by_perm (l : list A) : sort_by key l ≡ₚ l.
Proof.
  unfold sort_by.
  assert (H : forall acc, fold_left (fun sorted x => insert_by key x sorted) l acc
                          ≡ₚ acc ++ l).
  { induction l as [|x l IH]; intros acc; simpl.
    - by rewrite app_nil_r.
    - rewrite IH, insert_by_perm. simpl. apply Permutation_middle. }
  apply H.
Qed.

Lemma insert_by_ascending (x : A) (l : list A) :
  ascending key l -> ascending key (insert_by key x l).
Proof.
  induction l as [|y l IH]; simpl; [done|].
  intros [Hy Hl]. destruct (key y <=? key x) eqn:E; simpl.
  - split; [|by apply IH].
    rewrite insert_by_perm. constructor; [lia|done].
  - split; [|done]. constructor; [lia|].
    eapply Forall_impl; [exact Hy|]. simpl. intros. lia.
Qed.

Lemma sort_by_ascending (l : list A) : ascending key (sort_by key l).
Proof.
  unfold sort_by.
  assert (H : forall acc, ascending key acc ->
            ascending key (fold_left (fun sorted x => insert_by key x sorted) l acc)).
  { induction l as [|x l IH]; intros acc Hacc; simpl; [done|].
    by apply IH, insert_by_ascending. }
  by apply H.
Qed.

End sorting.

Section try_map_facts.

Context {A B : Type} (f : A -> exn + B).

Lemma try_map_inr (l : list A) (bs : list B) :
  try_map f l = inr bs -> Forall2 (fun a b => f a = inr b) l bs.
Proof.
  revert bs. induction l as [|a l IH]; simpl; intros bs.
  - intros [= <-]. constructor.
  - destruct (f a) as [e|b] eqn:E; [done|].
    destruct (try_map f l) as [e|bs']; [done|].
    intros [= <-]. constructor; [done|by apply IH].
Qed.

Lemma try_map_total (l : list A) :
  Forall (fun a => exists b, f a = inr b) l -> exists bs, try_map f l = inr bs.
Proof.
  induction 1 as [|a l [b Hb] _ [bs IH]]; simpl; [by eexists|].
  rewrite Hb, IH. by eexists.
Qed.

End try_map_facts.

(** A quantity of a low-stock product that was validated converts to a
    float. *)
Lemma float_of_low_quantity (q : Z) :
  0 <= q < 10 -> exists f, float_of_int q = Some f.
Proof.
  intros H.
  assert (q = 0 \/ q = 1 \/ q = 2 \/ q = 3 \/ q = 4 \/ q = 5 \/ q = 6
          \/ q = 7 \/ q = 8 \/ q = 9) as Hq by lia.
  repeat (destruct Hq as [->|Hq]; [by eexists|]). subst. by eexists.
Qed.

Lemma line_value_total (p : Product) :
  0 <= qty p < 10 -> exists v, line_value p = inr v.
Proof.
  intros H. unfold line_value.
  destruct (float_of_low_quantity _ H) as [f ->]. by eexists.
Qed.

(** The cells of a row of the low-stock table. *)
Lemma low_stock_row_cells (p : Product) (row : list str) :
  low_stock_row p = inr row ->
  row !! 0%nat = Some (if qty p <? 5 then label_critical else label_low)
  /\ row !! 1%nat = Some (str_of_int (id p))
  /\ row !! 4%nat = Some (str_of_int (qty p))
  /\ row !! 7%nat = Some (lit "+" ++ str_of_int (Z.max (20 - qty p) 10)).
Proof.
  unfold low_stock_row. destruct (line_value p); [done|].
  intros [= <-]. repeat split; reflexivity.
Qed.

(** C7: the low-stock report of validated products is produced; when
    some product has a quantity below 10 its table holds, after the
    header, one row per such product, in ascending order of quantity, and
    in the row of a product the suggested reorder quantity is
    [max(20 - quantity, 10)] (printed after a [+]) and the priority label
    is the critical one exactly when the quantity is below 5 and the low
    one otherwise.  For quantity 3 the reorder is 17 and the label is
    the critical one. *)
Theorem low_stock_rows_reorder_and_priority :
  forall (sum_floats : list float -> float) (w : World)
         (products : list Product),
    let low := sort_by qty (filter (fun p => qty p < 10) products) in
    ((forall p, p ∈ products -> 0 <= qty p) ->
     exists d, generate_low_stock_report sum_floats w products = inr d)
    /\ (forall d,
          generate_low_stock_report sum_floats w products = inr d ->
          low <> [] ->
          exists rows,
            data_table d = Some (low_stock_header :: rows)
            /\ Forall2
                 (fun p row =>
                    row !! 0%nat
                    = Some (if qty p <? 5 then label_critical else label_low)
                    /\ row !! 1%nat = Some (str_of_int (id p))
                    /\ row !! 4%nat = Some (str_of_int (qty p))
                    /\ row !! 7%nat
                       = Some (lit "+"
                               ++ str_of_int (Z.max (20 - qty p) 10)))
                 low rows)
    /\ (low ≡ₚ filter (fun p => qty p < 10) products /\ ascending qty low)
    /\ label_critical <> label_low
    /\ (lit "+" ++ str_of_int (Z.max (20 - 3) 10) = lit "+17"
        /\ (3 <? 5) = true).
Proof.
  intros sum_floats w products low.
  assert (Hperm : low ≡ₚ filter (fun p => qty p < 10) products)
    by apply sort_by_perm.
  split; [|split; [|split; [|split]]].
  - intros Hvalid. unfold generate_low_stock_report.
    assert (Hlow : Forall (fun p => 0 <= qty p < 10)
                     (filter (fun p => qty p < 10) products)).
    { apply Forall_forall. intros p [Hp Hin]%list_elem_of_filter.
      specialize (Hvalid p Hin). lia. }
    destruct (filter (fun p => qty p < 10) products) as [|p0 l0] eqn:F;
      [by eexists|].
    unfold total_of, line_values.
    destruct (try_map_total line_value (p0 :: l0)) as [vs ->].
    { eapply Forall_impl; [exact Hlow|]. apply line_value_total. }
    unfold rows_of.
    destruct (try_map_total low_stock_row (sort_by qty (p0 :: l0)))
      as [rows ->]; [|by eexists].
    fold low. rewrite Hperm.
    eapply Forall_impl; [exact Hlow|]. intros p Hp. unfold low_stock_row.
    destruct (line_value_total p Hp) as [v ->]. by eexists.
  - intros d. unfold generate_low_stock_report. subst low.
    destruct (filter (fun p => qty p < 10) products) as [|p0 l0] eqn:F;
      [done|].
    destruct (total_of sum_floats (p0 :: l0)); [done|].
    unfold rows_of.
    destruct (try_map low_stock_row (sort_by qty (p0 :: l0)))
      as [e|rows] eqn:R; [done|].
    intros [= <-] _. exists rows. split; [reflexivity|].
    apply try_map_inr in R.
    eapply Forall2_impl; [exact R|]. apply low_stock_row_cells.
  - split; [exact Hperm|apply sort_by_ascending].
  - discriminate.
  - split; reflexivity.
Qed.

Lemma low_stock_rows_reorder_and_priority_witness :
  match generate_low_stock_report sequential_sum (mk_World sample_clock)
          sample_products with
  | inr d =>
      exists rows,
        data_table d = Some (low_stock_header :: rows)
        /\ Forall2
             (fun p row =>
                row !! 0%nat
                = Some (if qty p <? 5 then label_critical else label_low)
                /\ row !! 1%nat = Some (str_of_int (id p))
                /\ row !! 4%nat = Some (str_of_int (qty p))
                /\ row !! 7%nat
                   = Some (lit "+" ++ str_of_int (Z.max (20 - qty p) 10)))
             (sort_by qty (filter (fun p => qty p < 10) sample_products)) rows
  | inl _ => False
  end.
Proof.
  destruct (generate_low_stock_report sequential_sum (mk_World sample_clock)
              sample_products) as [e|d] eqn:E.
  - vm_compute in E. discriminate E.
  - apply (proj1 (proj2 (low_stock_rows_reorder_and_priority sequential_sum
                           (mk_World sample_clock) sample_products)) d E).
    vm_compute. discriminate.
Defined.




(* ===================================================================== *)
(** ** More on the request handlers *)
(* ===================================================================== *)

(** The store after [create_product] inserted the row of [p]. *)
Lemma create_product_inr (p : ProductBase.fields) (s s' : Store)
    (product : Product) :
  Api.create_product p s = (inr product, s') ->
  let row := mk_row (next_id s) (ProductBase.name p) (ProductBase.category p)
               (ProductBase.quantity p) (ProductBase.price p)
               (ProductBase.description p) (server_now s) (server_now s) in
  fault s = None
  /\ s' = mk_Store (<[next_id s := row]> (table s)) (next_id s + 1)
            (server_now s) None
  /\ Product_of_row row = inr product.
Proof.
  unfold Api.create_product, create_product, api_boundary, bind, when.
  destruct (ProductBase.price p <=? 0)%float; [done|].
  destruct (ProductBase.quantity p <? 0); [done|].
  unfold ret at 1 2.
  unfold execute_insert, execute_one, get_connection, cursor_execute.
  destruct (fault s) as [m|] eqn:Hf; [done|].
  cbn [working]. rewrite products_run_insert.
  unfold run_insert, value_of_optional_str.
  intros H.
  assert (Hget : exists s1,
    s1 = mk_Store
           (<[next_id s := mk_row (next_id s) (ProductBase.name p)
                             (ProductBase.category p) (ProductBase.quantity p)
                             (ProductBase.price p) (ProductBase.description p)
                             (server_now s) (server_now s)]> (table s))
           (next_id s + 1) (server_now s) None
    /\ Api.get_product (next_id s) s1 = (inr product, s')).
  { eexists. split; [reflexivity|]. revert H.
    destruct (ProductBase.description p); cbn; rewrite Hf;
      match goal with
      | |- context [get_product products_run fault ?i ?st] =>
          change (get_product products_run fault i st)
            with (Api.get_product i st);
          destruct (Api.get_product i st) as [[e|p0] s2]
      end; cbn; try destruct (is_HTTPException e); congruence. }
  destruct Hget as (s1 & Hs1 & Hget).
  pose proof (get_product_cases (next_id s) s1) as [Hs Hr].
  rewrite Hget in Hs, Hr. simpl in Hs, Hr. subst s'.
  split; [done|]. split; [exact Hs1|].
  rewrite Hs1 in Hr. simpl in Hr. rewrite lookup_insert_eq in Hr.
  match type of Hr with
  | context [Product_of_row ?r] => destruct (Product_of_row r)
  end; congruence.
Qed.

(** Insert/lookup round trip: when [create_product] succeeds, the product
    it returns carries the identifier the store generated, fetching that
    identifier from the resulting store returns the same product, the
    next identifier has moved on by one, and no other row was touched. *)
Theorem created_product_can_be_fetched :
  forall (p : ProductBase.fields) (s s' : Store) (product : Product),
    Api.create_product p s = (inr product, s') ->
    id product = next_id s
    /\ Api.get_product (id product) s' = (inr product, s')
    /\ next_id s' = next_id s + 1
    /\ (forall j, j <> next_id s -> table s' !! j = table s !! j).
Proof.
  intros p s s' product H.
  apply create_product_inr in H as (Hf & -> & Hrow).
  assert (Hid : id product = next_id s).
  { unfold Product_of_row, Product_init in Hrow. simpl in Hrow.
    destruct (ProductBase.init _); [done|]. by injection Hrow as <-. }
  split; [exact Hid|]. split; [|split].
  - rewrite Hid.
    match goal with |- Api.get_product ?i ?st = _ =>
      pose proof (get_product_cases i st) as [Hs Hr];
      destruct (Api.get_product i st) as [r s2]
    end.
    simpl in Hs, Hr. rewrite lookup_insert_eq, Hrow in Hr. by subst.
  - done.
  - intros j Hj. simpl. by rewrite lookup_insert_ne.
Qed.

Lemma created_product_can_be_fetched_witness :
  id (mk_Product 1 widget sample_clock sample_clock) = next_id empty_store
  /\ Api.get_product (id (mk_Product 1 widget sample_clock sample_clock))
       store_with_widget
     = (inr (mk_Product 1 widget sample_clock sample_clock), store_with_widget)
  /\ next_id store_with_widget = next_id empty_store + 1
  /\ (forall j, j <> next_id empty_store ->
        table store_with_widget !! j = table empty_store !! j).
Proof.
  apply (created_product_can_be_fetched widget empty_store store_with_widget).
  reflexivity.
Defined.

(** The handlers test the price after validation rounded it: a creation
    request that passed validation with a price that rounds to zero (or
    any model whose price is not positive) is answered 400 "Price must be
    greater than 0" before any statement is sent, and so is an update of
    an existing product to such a price; the store is unchanged. *)
Theorem handlers_reject_rounded_zero_price :
  (forall raw p s,
     ProductCreate.init raw = inr p ->
     (round2 (ProductBase.price raw) <=? 0)%float = true ->
     Api.create_product p s
     = (inl (HTTPException 400 (lit "Price must be greater than 0")), s))
  /\ (forall product_id u row p v s,
        fault s = None -> table s !! product_id = Some row ->
        Product_of_row row = inr p ->
        (forall q, ProductUpdate.quantity u = Some q -> 0 <= q) ->
        ProductUpdate.price u = Some v -> (v <=? 0)%float = true ->
        Api.update_product product_id u s
        = (inl (HTTPException 400 (lit "Price must be greater than 0")), s)).
Proof.
  split.
  - intros raw p s Hv Hz.
    apply ProductBase_init_inr in Hv as (_ & _ & _ & (Hp & _) & _).
    unfold Api.create_product, create_product, api_boundary, bind, when.
    by rewrite Hp, Hz.
  - intros product_id u row p v s Hf Hrow Hp Hq Hv Hz.
    pose proof (get_product_cases product_id s) as [Hs Hr].
    rewrite Hf, Hrow, Hp in Hr.
    unfold Api.update_product, update_product, api_boundary, bind.
    change (get_product products_run fault product_id s)
      with (Api.get_product product_id s).
    destruct (Api.get_product product_id s) as [r s0]. simpl in Hs, Hr.
    subst. unfold update_fields_of, bind, when. rewrite Hv, Hz.
    destruct (ProductUpdate.quantity u) as [q|]; [|reflexivity].
    specialize (Hq q eq_refl). destruct (q <? 0) eqn:E; [lia|reflexivity].
Qed.

Lemma handlers_reject_rounded_zero_price_witness :
  Api.create_product
    (ProductBase.mk_fields (lit "Widget") (lit "Tools") 3 0 None) empty_store
  = (inl (HTTPException 400 (lit "Price must be greater than 0")),
     empty_store).
Proof.
  apply (proj1 handlers_reject_rounded_zero_price
           (ProductBase.mk_fields (lit "Widget") (lit "Tools") 3 0.004 None));
    reflexivity.
Defined.

(* ===================================================================== *)
(** ** models.py: pagination *)
(* ===================================================================== *)

(** An accepted [PaginationParams] has a page of at least 1 and a limit
    between 1 and 100, so its [skip] is a multiple of the limit that is
    not negative, and [get_products] accepts that skip and limit.  With
    one limit, the windows [skip, skip + limit) of two different pages
    do not overlap, and every offset from 0 lies in the window of an
    accepted page. *)
Theorem pagination_windows_tile_the_offsets :
  (forall page_given limit_given f,
     PaginationParams.init page_given limit_given = inr f ->
     1 <= PaginationParams.page f
     /\ 1 <= PaginationParams.limit f <= 100
     /\ 0 <= PaginationParams.skip f
     /\ PaginationParams.skip f mod PaginationParams.limit f = 0
     /\ get_products_paging (Some (PaginationParams.skip f))
          (Some (PaginationParams.limit f))
        = inr (PaginationParams.skip f, PaginationParams.limit f))
  /\ (forall p q l f g n,
        PaginationParams.init (Some p) (Some l) = inr f ->
        PaginationParams.init (Some q) (Some l) = inr g ->
        PaginationParams.skip f <= n < PaginationParams.skip f + l ->
        PaginationParams.skip g <= n < PaginationParams.skip g + l ->
        p = q)
  /\ (forall l n,
        1 <= l <= 100 -> 0 <= n ->
        exists f,
          PaginationParams.init (Some (n / l + 1)) (Some l) = inr f
          /\ PaginationParams.skip f <= n < PaginationParams.skip f + l).
Proof.
  assert (Hinit : forall pg lg f,
            PaginationParams.init pg lg = inr f ->
            1 <= PaginationParams.page f
            /\ 1 <= PaginationParams.limit f <= 100
            /\ (forall p, pg = Some p -> PaginationParams.page f = p)
            /\ (forall l, lg = Some l -> PaginationParams.limit f = l)).
  { intros pg lg f. unfold PaginationParams.init, in_range.
    destruct pg as [p|], lg as [l|];
      try destruct (p <? 1) eqn:Ep; try destruct (l <? 1) eqn:El1;
      try destruct (100 <? l) eqn:El2; simpl; try done;
      intros [= <-]; simpl;
      (split; [lia|split; [lia|split; intros ? [= <-]; done]]). }
  split; [|split].
  - intros pg lg f Hf. destruct (Hinit _ _ _ Hf) as (Hp & Hl & _).
    unfold PaginationParams.skip.
    split; [done|]. split; [done|]. split; [nia|].
    split; [apply Z.mod_mul; lia|].
    unfold get_products_paging, in_range.
    destruct (_ <? 0) eqn:E1; [nia|].
    destruct (PaginationParams.limit f <? 1) eqn:E2; [lia|].
    destruct (1000 <? PaginationParams.limit f) eqn:E3; [lia|]. done.
  - intros p q l f g n Hf Hg.
    destruct (Hinit _ _ _ Hf) as (Hp & Hl & Hpf & Hlf).
    destruct (Hinit _ _ _ Hg) as (Hq & _ & Hqg & Hlg).
    unfold PaginationParams.skip.
    rewrite (Hpf p eq_refl), (Hlf l eq_refl) in *.
    rewrite (Hqg q eq_refl), (Hlg l eq_refl) in *. nia.
  - intros l n Hl Hn.
    assert (Hdiv : 0 <= n / l) by (apply Z.div_pos; lia).
    exists (PaginationParams.mk_fields (n / l + 1) l). split.
    + unfold PaginationParams.init, in_range.
      destruct (n / l + 1 <? 1) eqn:E1; [lia|].
      destruct (l <? 1) eqn:E2; [lia|].
      destruct (100 <? l) eqn:E3; [lia|]. done.
    + unfold PaginationParams.skip. simpl.
      pose proof (Z.div_mod n l ltac:(lia)).
      pose proof (Z.mod_pos_bound n l ltac:(lia)). nia.
Qed.

Lemma pagination_windows_tile_the_offsets_witness :
  exists f,
    PaginationParams.init (Some (25 / 10 + 1)) (Some 10) = inr f
    /\ PaginationParams.skip f <= 25 < PaginationParams.skip f + 10.
Proof.
  apply (proj2 (proj2 pagination_windows_tile_the_offsets) 10 25); lia.
Defined.

(* ===================================================================== *)
(** ** utils.py: sanitising and the inventory value *)
(* ===================================================================== *)








Section converting.

Variable int_of_str : str -> option Z.
Variable float_of_str : str -> option float.

Lemma int_of_float_inl (f : float) (e : builtins.error) :
  int_of_float f = inl e ->
  (e = builtins.ValueError /\ Prim2SF f = S754_nan)
  \/ (e = builtins.OverflowError /\ exists s, Prim2SF f = S754_infinity s).
Proof.
  unfold int_of_float. destruct (Prim2SF f) as [s|s| |s m ex]; try done.
  - intros [= <-]. right. eauto.
  - intros [= <-]. by left.
Qed.

Lemma inventory_total_app (ps qs : list (gmap str value)) (t : float) :
  inventory_total int_of_str float_of_str t (ps ++ qs)
  = match inventory_total int_of_str float_of_str t ps with
    | inr t' => inventory_total int_of_str float_of_str t' qs
    | inl e => inl e
    end.
Proof.
  revert t. induction ps as [|p ps IH]; intros t; simpl; [done|].
  destruct (entry_value _ _ p) as [e|v]; [|apply IH].
  destruct (is_value_or_type_error e); [apply IH|done].
Qed.

Lemma entry_value_inl (p : gmap str value) (e : builtins.error) :
  entry_value int_of_str float_of_str p = inl e ->
  is_value_or_type_error e = true \/ e = builtins.OverflowError.
Proof.
  unfold entry_value.
  destruct (py_int _ _) as [e1|q] eqn:E1.
  - intros [= <-]. destruct (get_or p "quantity" (VInt 0)); simpl in E1;
      try (injection E1 as <-; by left); try done.
    + apply int_of_float_inl in E1 as [[-> _]|[-> _]]; [by left|by right].
    + destruct (int_of_str s); [done|]. injection E1 as <-. by left.
  - destruct (py_float _ _) as [e2|pr] eqn:E2.
    + intros [= <-]. destruct (get_or p "price" (VInt 0)); simpl in E2;
        try (injection E2 as <-; by left); try done.
      * destruct (float_of_int z); [done|]. injection E2 as <-. by right.
      * destruct (float_of_str s); [done|]. injection E2 as <-. by left.
    + destruct (float_of_int q); [done|]. intros [= <-]. by right.
Qed.

Lemma inventory_total_inl (ps : list (gmap str value)) (t : float)
    (e : builtins.error) :
  inventory_total int_of_str float_of_str t ps = inl e ->
  e = builtins.OverflowError
  /\ exists p, p ∈ ps
       /\ entry_value int_of_str float_of_str p = inl builtins.OverflowError.
Proof.
  revert t. induction ps as [|p ps IH]; intros t; simpl; [done|].
  destruct (entry_value _ _ p) as [e'|v] eqn:E.
  - destruct (entry_value_inl _ _ E) as [H| ->].
    + rewrite H. intros H'. apply IH in H' as (-> & p' & Hp' & He).
      split; [done|]. exists p'. split; [by right|done].
    + simpl. intros [= <-]. split; [done|]. exists p. split; [by left|done].
  - intros H'. apply IH in H' as (-> & p' & Hp' & He).
    split; [done|]. exists p'. split; [by right|done].
Qed.

(** [calculate_inventory_value] leaves out an entry whose quantity or
    price raises [ValueError] or [TypeError]: the result is the one of
    the list without it.  That is all it catches: the call fails
    exactly when an entry raises [OverflowError] (an infinite quantity,
    or an integer too large for a float), and then with that error;
    otherwise it returns a total. *)
Theorem inventory_value_skips_unreadable_entries :
  (forall ps bad qs e,
     entry_value int_of_str float_of_str bad = inl e ->
     is_value_or_type_error e = true ->
     calculate_inventory_value int_of_str float_of_str (ps ++ bad :: qs)
     = calculate_inventory_value int_of_str float_of_str (ps ++ qs))
  /\ (forall ps e,
        calculate_inventory_value int_of_str float_of_str ps = inl e <->
        e = builtins.OverflowError
        /\ exists p, p ∈ ps
             /\ entry_value int_of_str float_of_str p
                = inl builtins.OverflowError)
  /\ (forall ps,
        (forall p, p ∈ ps ->
           entry_value int_of_str float_of_str p
           <> inl builtins.OverflowError) ->
        exists total,
          calculate_inventory_value int_of_str float_of_str ps = inr total).
Proof.
  assert (Hinl : forall ps e,
            calculate_inventory_value int_of_str float_of_str ps = inl e ->
            e = builtins.OverflowError
            /\ exists p, p ∈ ps
                 /\ entry_value int_of_str float_of_str p
                    = inl builtins.OverflowError).
  { intros ps e. unfold calculate_inventory_value.
    destruct (inventory_total _ _ _ ps) as [e'|t] eqn:E; [|done].
    intros [= <-]. by apply inventory_total_inl in E. }
  split; [|split].
  - intros ps bad qs e He Hc. unfold calculate_inventory_value.
    rewrite !inventory_total_app.
    destruct (inventory_total _ _ _ ps) as [e'|t]; [done|].
    simpl. by rewrite He, Hc.
  - intros ps e. split; [apply Hinl|].
    intros [-> (p & Hp & He)].
    apply list_elem_of_split in Hp as (l1 & l2 & ->).
    unfold calculate_inventory_value. rewrite inventory_total_app.
    destruct (inventory_total _ _ _ l1) as [e'|t] eqn:E.
    + apply inventory_total_inl in E as [-> _]. done.
    + simpl. by rewrite He.
  - intros ps Hps.
    destruct (calculate_inventory_value _ _ ps) as [e|t] eqn:E; [|eauto].
    apply Hinl in E as (-> & p & Hp & He). by destruct (Hps p Hp).
Qed.

End converting.

Lemma inventory_value_skips_unreadable_entries_witness :
  calculate_inventory_value digits_int digits_float
    ([good_entry] ++ bad_entry :: [good_entry])
  = calculate_inventory_value digits_int digits_float
      ([good_entry] ++ [good_entry])
  /\ calculate_inventory_value digits_int digits_float
       [good_entry; endless_entry]
     = inl builtins.OverflowError.
Proof.
  split.
  - apply (proj1 (inventory_value_skips_unreadable_entries digits_int
                    digits_float) [good_entry] bad_entry [good_entry]
             builtins.ValueError); reflexivity.
  - apply (proj1 (proj2 (inventory_value_skips_unreadable_entries digits_int
                           digits_float))).
    split; [reflexivity|]. exists endless_entry. split; [|reflexivity].
    right. left.
Defined.

(* ===================================================================== *)
(** ** utils.py: the statement the filter builder returns *)
(* ===================================================================== *)

(** Placeholders of a text put together from two: no placeholder spans
    the seam when the second part does not start with [s]. *)
Lemma count_placeholders_app (a b : str) :
  match b with 115%N :: _ => False | _ => True end ->
  count_placeholders (a ++ b)
  = (count_placeholders a + count_placeholders b)%nat.
Proof.
  intros Hb.
  assert (H : forall n (a : str), (length a <= n)%nat ->
            count_placeholders (a ++ b)
            = (count_placeholders a + count_placeholders b)%nat);
    [|by apply (H (length a))].
  clear a. induction n as [|n IH]; intros a Hn.
  - by destruct a; [|simpl in Hn; lia].
  - destruct a as [|x a]; [done|]. simpl in Hn.
    assert (Hx : forall c, c <> 37%N ->
              count_placeholders (c :: a ++ b)
              = (count_placeholders (c :: a) + count_placeholders b)%nat).
    { intros c Hc. transitivity (count_placeholders (a ++ b)).
      - simpl. destruct c as [|p]; [done|].
        do 6 (destruct p as [p|p|]; try done).
      - rewrite IH by lia. f_equal. simpl. destruct c as [|p]; [done|].
        do 6 (destruct p as [p|p|]; try done). }
    destruct (decide (x = 37%N)) as [->|Hx']; [|by apply Hx].
    destruct a as [|y a].
    + simpl. destruct b as [|c b]; [done|].
      destruct (decide (c = 115%N)) as [->|Hc]; [done|].
      destruct c as [|p]; [done|].
      do 7 (destruct p as [p|p|]; try done).
    + destruct (decide (y = 115%N)) as [->|Hy].
      * simpl. rewrite IH by (simpl in Hn; lia). done.
      * transitivity (count_placeholders ((y :: a) ++ b)).
        -- simpl. destruct y as [|p]; [done|].
           do 7 (destruct p as [p|p|]; try done).
        -- rewrite IH by (simpl in *; lia). f_equal.
           simpl. destruct y as [|p]; [done|].
           do 7 (destruct p as [p|p|]; try done).
Qed.

(** The statement [build_search_query] returns has exactly one
    placeholder more than the base statement for each argument it
    returns: what the filters add is balanced, whatever the filters
    are. *)
Theorem build_search_query_placeholders_balanced :
  forall (repr_float : float -> str) (base_query : str)
         (filters : gmap str value),
    count_placeholders (build_search_query repr_float base_query filters).1
    = (count_placeholders base_query
       + length (build_search_query repr_float base_query filters).2)%nat.
Proof.
  intros repr_float base_query filters.
  unfold build_search_query, add_if.
  destruct (truthy (dict_get filters "category")),
    (is_not_None (dict_get filters "min_price")),
    (is_not_None (dict_get filters "max_price")),
    (is_not_None (dict_get filters "min_quantity")),
    (is_not_None (dict_get filters "max_quantity")),
    (truthy (dict_get filters "search")),
    (truthy (dict_get filters "low_stock"));
    cbn [fst snd app];
    first [ by rewrite Nat.add_0_r
          | rewrite count_placeholders_app by exact I; f_equal;
            reflexivity ].
Qed.

(* ===================================================================== *)
(** ** main.py: the list endpoint and its rows *)
(* ===================================================================== *)

Section listing.

Context {State : Type}.
Variable run : str -> list value -> State -> str + (State * cursor product_row).
Variable unavailable : State -> option str.

Lemma for_each_construct_all (rows : list product_row) (ps : list Product)
    (db : State) :
  Forall2 (fun row p => Product_of_row row = inr p) rows ps ->
  for_each (fun row => construct (Product_of_row row)) rows db
  = (inr ps, db).
Proof.
  induction 1 as [|row p rows ps Hrow _ IH]; [done|].
  simpl. unfold bind at 1. rewrite Hrow. simpl.
  unfold bind at 1. by rewrite IH.
Qed.

Lemma for_each_construct_bad (good rest : list product_row)
    (bad : product_row) (ps : list Product) (errs : ValidationError)
    (db : State) :
  Forall2 (fun row p => Product_of_row row = inr p) good ps ->
  Product_of_row bad = inl errs ->
  for_each (fun row => construct (Product_of_row row))
    (good ++ bad :: rest) db
  = (inl (ModelError errs), db).
Proof.
  intros Hgood Hbad.
  induction Hgood as [|row p rows ps' Hrow _ IH]; simpl.
  - unfold bind at 1. by rewrite Hbad.
  - unfold bind at 1. rewrite Hrow. simpl. unfold bind at 1. by rewrite IH.
Qed.

(** The list endpoint returns all rows or none.  When the store answers
    the list statement, the products come back one per row and in the
    rows' order if the model accepts every row; a single row the model
    refuses, wherever it is, makes the whole request fail with status
    500 and that row's validation errors. *)
Theorem get_products_all_rows_or_none :
  forall skip limit category search low_stock db db' cur,
    unavailable db = None ->
    run (get_products_query skip limit category search low_stock).1
      (get_products_query skip limit category search low_stock).2 db
    = inr (db', cur) ->
    (forall ps,
       Forall2 (fun row p => Product_of_row row = inr p) (fetchall cur) ps ->
       get_products run unavailable skip limit category search low_stock db
       = (inr ps, db'))
    /\ (forall good bad rest ps errs,
          fetchall cur = good ++ bad :: rest ->
          Forall2 (fun row p => Product_of_row row = inr p) good ps ->
          Product_of_row bad = inl errs ->
          get_products run unavailable skip limit category search low_stock
            db
          = (inl (HTTPExceptionFrom 500 (lit "Failed to fetch products: ")
                    (ModelError errs)), db')).
Proof.
  intros skip limit category search low_stock db db' cur Hup Hrun.
  assert (Hq : exists query p params,
            get_products_query skip limit category search low_stock
            = (query, p :: params)).
  { unfold get_products_query.
    destruct category as [[|? ?]|], search as [[|? ?]|];
      cbn [app]; eauto. }
  destruct Hq as (query & p & params & Hq). rewrite Hq in Hrun.
  simpl in Hrun.
  assert (Hex : execute_query run unavailable query (Some (p :: params)) db
                = (inr (fetchall cur), db')).
  { unfold execute_query, execute_one, get_connection, cursor_execute.
    rewrite Hup. simpl. by rewrite Hrun. }
  unfold get_products, api_boundary. rewrite Hq.
  split.
  - intros ps Hps. unfold bind. rewrite Hex.
    by rewrite (for_each_construct_all _ _ _ Hps).
  - intros good bad rest ps errs Hrows Hgood Hbad. unfold bind.
    rewrite Hex, Hrows.
    by rewrite (for_each_construct_bad _ _ _ _ _ _ Hgood Hbad).
Qed.

End listing.

Lemma get_products_all_rows_or_none_witness :
  exists errs,
    get_products (answering_run [widget_row 1; blank_row; widget_row 3])
      (fun _ => None) 0 100 None None None tt
    = (inl (HTTPExceptionFrom 500 (lit "Failed to fetch products: ")
              (ModelError errs)), tt).
Proof.
  destruct (Product_of_row (widget_row 1)) as [e|p] eqn:Hp;
    [vm_compute in Hp; discriminate|].
  destruct (Product_of_row blank_row) as [errs|q] eqn:Hb;
    [|vm_compute in Hb; discriminate].
  exists errs.
  apply (proj2 (get_products_all_rows_or_none
                  (answering_run [widget_row 1; blank_row; widget_row 3])
                  (fun _ => None) 0 100 None None None tt tt
                  (mk_cursor [widget_row 1; blank_row; widget_row 3] 3 0)
                  eq_refl eq_refl)
           [widget_row 1] blank_row [widget_row 3] [p] errs);
    [reflexivity| |exact Hb].
  constructor; [exact Hp|constructor].
Defined.
